(** * Sway [ParameterValue]: lazy coercion, validation and error facets

    A shallow embedding of [lib/types/parameter-value.js].  The three
    property getters [value], [valid] and [error] share four closure
    variables ([processed], [processedValue], [isValid], [error]); they are
    modelled as computations in a state-and-exception monad whose state
    survives a [throw], as JavaScript's does.

    The helpers of [lib/helpers.js] ([convertValue], [isFile],
    [escapeSingleQuotes], [constructSchemaPathFromPtr],
    [validateAgainstSchema]) are parameters of the development; module
    [Sample] gives stand-ins for them, used to run the getters on concrete
    inputs.

    Conventions of the model: what is thrown is an [Error] object;
    numbers are integers; [required] is [true], [false] or absent; a
    state records, besides the closure variables, the descriptor object
    (which [escapePaths] changes in place) and the calls made to the
    coercion function and to the validator. *)

From Stdlib Require Import String Ascii List ZArith Bool Lia.
Import ListNotations.
Local Open Scope string_scope.
Local Open Scope list_scope.

Set Warnings "-register-all".

(* ===================================================================== *)
(** ** JavaScript values *)
(* ===================================================================== *)

(** Primitives are compared by content, objects by identity: every object
    value carries the reference [ref] it lives at.  Numbers are the
    integers a coercion produces. *)
Inductive JsValue : Type :=
| VUndefined
| VNull
| VBool (b : bool)
| VNumber (n : Z)
| VString (s : string)
| VFunction (ref : nat)
| VDate (ref : nat) (time : Z)
| VBuffer (ref : nat) (bytes : list Z)
| VArray (ref : nat) (elems : list JsValue)
| VObject (ref : nat) (props : list (string * JsValue)).

(** [_.isUndefined]. *)
Definition isUndefined (v : JsValue) : bool :=
  match v with VUndefined => true | _ => false end.

(** [_.isDate]. *)
Definition isDate (v : JsValue) : bool :=
  match v with VDate _ _ => true | _ => false end.

(** [_.isFunction]. *)
Definition isFunction (v : JsValue) : bool :=
  match v with VFunction _ => true | _ => false end.

(** [a === b].  The one value that is not [===] to itself, [NaN], is not
    among the numbers above, so nothing below rests on a value being
    [===] to itself: where that matters it is a hypothesis. *)
Definition strict_eq (a b : JsValue) : bool :=
  match a, b with
  | VUndefined, VUndefined => true
  | VNull, VNull => true
  | VBool x, VBool y => Bool.eqb x y
  | VNumber x, VNumber y => Z.eqb x y
  | VString x, VString y => String.eqb x y
  | VFunction r, VFunction r' => Nat.eqb r r'
  | VDate r _, VDate r' _ => Nat.eqb r r'
  | VBuffer r _, VBuffer r' _ => Nat.eqb r r'
  | VArray r _, VArray r' _ => Nat.eqb r r'
  | VObject r _, VObject r' _ => Nat.eqb r r'
  | _, _ => false
  end.

(** [s === 'lit'] for a property that is a string or absent. *)
Definition is_str (o : option string) (lit : string) : bool :=
  match o with Some s => String.eqb s lit | None => false end.

(** [o === true] for a property that is a boolean or absent. *)
Definition is_true (o : option bool) : bool :=
  match o with Some true => true | _ => false end.

(** [_.every(l, _.isUndefined)]. *)
Definition every_undefined (l : list JsValue) : bool := forallb isUndefined l.

(* ===================================================================== *)
(** ** Error objects and completions *)
(* ===================================================================== *)

(** An [Error] instance with the properties this module reads or writes. *)
Record JsError : Type := mkError {
  e_name : string;
  e_message : string;
  e_code : option string;
  e_errors : option (list JsValue);
  e_failedValidation : option bool;
  e_schemaPath : option string
}.

(** [new Error(msg)]. *)
Definition new_Error (msg : string) : JsError :=
  mkError "Error" msg None None None None.

(** The [TypeError] raised by reading property [prop] of [null] or
    [undefined].  Its name is the language's; the wording of the message
    is the engine's (here V8's), and no statement below depends on it. *)
Definition TypeError_read (prop : string) (base : string) : JsError :=
  mkError "TypeError"
          ("Cannot read properties of " ++ base
             ++ " (reading '" ++ prop ++ "')")
          None None None None.

Definition set_code (c : string) (e : JsError) : JsError :=
  mkError (e_name e) (e_message e) (Some c) (e_errors e)
          (e_failedValidation e) (e_schemaPath e).

Definition set_errors (l : list JsValue) (e : JsError) : JsError :=
  mkError (e_name e) (e_message e) (e_code e) (Some l)
          (e_failedValidation e) (e_schemaPath e).

Definition set_failedValidation (b : bool) (e : JsError) : JsError :=
  mkError (e_name e) (e_message e) (e_code e) (e_errors e)
          (Some b) (e_schemaPath e).

Definition set_schemaPath (p : string) (e : JsError) : JsError :=
  mkError (e_name e) (e_message e) (e_code e) (e_errors e)
          (e_failedValidation e) (Some p).

(** How a call ends: it returns or it throws. *)
Inductive Completion (A : Type) : Type :=
| Normal (a : A)
| Throw (e : JsError).
Arguments Normal {A} a.
Arguments Throw {A} e.

(* ===================================================================== *)
(** ** Objects with string keys, in insertion order *)
(* ===================================================================== *)

Module Obj.

Definition t (V : Type) : Type := list (string * V).

(** [o[k]]. *)
Fixpoint get {V} (k : string) (o : t V) : option V :=
  match o with
  | [] => None
  | (k', v) :: o' => if String.eqb k k' then Some v else get k o'
  end.

(** [o[k] = v]: an existing key keeps its place, a new one goes last. *)
Fixpoint set {V} (k : string) (v : V) (o : t V) : t V :=
  match o with
  | [] => [(k, v)]
  | (k', v') :: o' =>
      if String.eqb k k' then (k', v) :: o' else (k', v') :: set k v o'
  end.

(** [Object.keys(o)]. *)
Definition keys {V} (o : t V) : list string := map fst o.

End Obj.

(** [value.prop]: throws on [undefined] and [null]; a Buffer has
    [readUInt8]; a plain object has its own properties. *)
Definition get_prop (v : JsValue) (prop : string) : Completion JsValue :=
  match v with
  | VUndefined => Throw (TypeError_read prop "undefined")
  | VNull => Throw (TypeError_read prop "null")
  | VBuffer r _ =>
      if String.eqb prop "readUInt8" then Normal (VFunction r)
      else Normal VUndefined
  | VObject _ props =>
      match Obj.get prop props with
      | Some x => Normal x
      | None => Normal VUndefined
      end
  | _ => Normal VUndefined
  end.

(* ===================================================================== *)
(** ** Schemas, documents and parameter descriptors *)
(* ===================================================================== *)

(** [schema.items]: one schema, or a list of them (a tuple). *)
Inductive ItemsOf (S : Type) : Type :=
| ItemsSingle (s : S)
| ItemsTuple (l : list S).
Arguments ItemsSingle {S} s.
Arguments ItemsTuple {S} l.

Module Schema.

Inductive t : Type := mk {
  type : option string;
  format : option string;
  default : JsValue;
  items : option (ItemsOf t);
  oneOf : option (list t);
  allowEmptyValue : option bool
}.

End Schema.

Module Document.

(** The root API definition: its [paths] collection and the rest. *)
Record t : Type := mk {
  paths : Obj.t JsValue;
  rest : Obj.t JsValue
}.

Definition with_paths (p : Obj.t JsValue) (d : t) : t := mk p (rest d).

End Document.

Module ParameterObject.

(** The [Parameter] object: [definition_schema] is [definition.schema]
    and [api_definition] is [pathObject.api.definition]. *)
Record t : Type := mk {
  schema : Schema.t;
  required : option bool;
  type : option string;
  collectionFormat : option string;
  ptr : string;
  definition_schema : option Schema.t;
  api_definition : Document.t
}.

Definition with_api_definition (d : Document.t) (p : t) : t :=
  mk (schema p) (required p) (type p) (collectionFormat p) (ptr p)
     (definition_schema p) d.

End ParameterObject.

(** What [helpers.validateAgainstSchema] returns. *)
Record ValidationResult : Type := mkResult {
  errors : list JsValue;
  warnings : list JsValue
}.

(* ===================================================================== *)
(** ** The instance state and its monad *)
(* ===================================================================== *)

(** Calls that leave the module, recorded in the order they are made. *)
Inductive Event : Type :=
| ConvertValue (s : Schema.t) (collectionFormat : option string)
               (raw : JsValue)
| ValidateAgainstSchema (doc : Document.t) (value : JsValue)
                        (schemaPath : string) (options : JsValue).

Definition is_ConvertValue (e : Event) : bool :=
  match e with ConvertValue _ _ _ => true | _ => false end.

Definition is_ValidateAgainstSchema (e : Event) : bool :=
  match e with ValidateAgainstSchema _ _ _ _ => true | _ => false end.

(** The closure variables of one [ParameterValue], the object its
    [parameterObject] refers to, the next free reference, and the calls
    made so far. *)
Record State : Type := mkState {
  processed : bool;
  error : option JsError;
  isValid : option bool;
  processedValue : JsValue;
  heap : ParameterObject.t;
  next_ref : nat;
  trace : list Event
}.

(** How often the coercion function and the validator have been called. *)
Definition conversions (st : State) : nat :=
  length (filter is_ConvertValue (trace st)).

Definition validations (st : State) : nat :=
  length (filter is_ValidateAgainstSchema (trace st)).

Definition M (A : Type) : Type := State -> Completion A * State.

Definition ret {A} (a : A) : M A := fun st => (Normal a, st).

Definition bind {A B} (m : M A) (f : A -> M B) : M B :=
  fun st =>
    match m st with
    | (Normal a, st') => f a st'
    | (Throw e, st') => (Throw e, st')
    end.

Definition throw {A} (e : JsError) : M A := fun st => (Throw e, st).

(** [try { m } catch (err) { h err }]: the handler starts from the state
    the body left behind. *)
Definition try_catch {A} (m : M A) (h : JsError -> M A) : M A :=
  fun st =>
    match m st with
    | (Normal a, st') => (Normal a, st')
    | (Throw e, st') => h e st'
    end.

Definition gets {A} (f : State -> A) : M A := fun st => (Normal (f st), st).

Definition modify (f : State -> State) : M unit :=
  fun st => (Normal tt, f st).

Definition lift {A} (c : Completion A) : M A := fun st => (c, st).

Declare Scope js_scope.
Delimit Scope js_scope with js.
Notation "x <- m ;; k" := (bind m (fun x => k))
  (at level 61, m at next level, right associativity) : js_scope.
Notation "m ;; k" := (bind m (fun _ => k))
  (at level 61, right associativity) : js_scope.
Local Open Scope js_scope.

(** Assignments to the closure variables and to the heap. *)
Definition with_processed (b : bool) (st : State) : State :=
  mkState b (error st) (isValid st) (processedValue st)
          (heap st) (next_ref st) (trace st).

Definition with_error (e : option JsError) (st : State) : State :=
  mkState (processed st) e (isValid st) (processedValue st)
          (heap st) (next_ref st) (trace st).

Definition with_isValid (b : option bool) (st : State) : State :=
  mkState (processed st) (error st) b (processedValue st)
          (heap st) (next_ref st) (trace st).

Definition with_processedValue (v : JsValue) (st : State) : State :=
  mkState (processed st) (error st) (isValid st) v
          (heap st) (next_ref st) (trace st).

Definition with_heap (p : ParameterObject.t) (st : State) : State :=
  mkState (processed st) (error st) (isValid st) (processedValue st)
          p (next_ref st) (trace st).

Definition with_next_ref (n : nat) (st : State) : State :=
  mkState (processed st) (error st) (isValid st) (processedValue st)
          (heap st) n (trace st).

Definition with_trace (t : list Event) (st : State) : State :=
  mkState (processed st) (error st) (isValid st) (processedValue st)
          (heap st) (next_ref st) t.

Definition assign_processed (b : bool) : M unit := modify (with_processed b).
Definition assign_error (e : option JsError) : M unit := modify (with_error e).
Definition assign_isValid (b : option bool) : M unit :=
  modify (with_isValid b).
Definition assign_processedValue (v : JsValue) : M unit :=
  modify (with_processedValue v).
Definition assign_heap (p : ParameterObject.t) : M unit :=
  modify (with_heap p).

Definition log (e : Event) : M unit :=
  modify (fun st => with_trace (trace st ++ [e]) st).

(** An array literal: a new object at the next free reference. *)
Definition new_array (elems : list JsValue) : M JsValue :=
  fun st => (Normal (VArray (next_ref st) elems),
             with_next_ref (S (next_ref st)) st).

(* ===================================================================== *)
(** ** The constructor and its three getters *)
(* ===================================================================== *)

Inductive Facet : Type := Value | Valid | Error.

Inductive Observation : Type :=
| ObsValue (v : JsValue)
| ObsValid (b : option bool)
| ObsError (e : option JsError).

Definition is_none {A} (o : option A) : bool :=
  match o with None => true | Some _ => false end.

(** [o === false] for a property that is a boolean or absent. *)
Definition is_false (o : option bool) : bool :=
  match o with Some false => true | _ => false end.

(** [['date', 'date-time'].indexOf(format) > -1]. *)
Definition is_date_format (format : option string) : bool :=
  is_str format "date" || is_str format "date-time".

(** [_.reduce(items, function (acc, item) { acc.push(item.default);
    return acc; }, [])]. *)
Definition collect_defaults (items : list Schema.t) : list JsValue :=
  fold_left (fun acc item => acc ++ [Schema.default item]) items [].

Section ParameterValue.

(** The helpers of [lib/helpers.js]. *)
Variable convertValue :
  Schema.t -> option string -> JsValue -> Completion JsValue.
Variable isFile : Schema.t -> bool.
Variable escapeSingleQuotes : string -> string.
Variable constructSchemaPathFromPtr : string -> option Schema.t -> string.
(** [validateAgainstSchema(getJSONSchemaValidator(), doc, value,
    schemaPath, undefined, options)]. *)
Variable validateAgainstSchema :
  Document.t -> JsValue -> string -> JsValue -> Completion ValidationResult.

(** The arguments of [new ParameterValue(...)]. *)
Variable parameterObject : ParameterObject.t.
Variable raw : JsValue.
Variable validateOptions : JsValue.

(** [var schema = parameterObject.schema], read once. *)
Definition schema : Schema.t := ParameterObject.schema parameterObject.

Arguments schema : simpl never.

(** The state the constructor leaves: nothing is computed yet.  The
    public properties [parameterObject], [raw] and [validateOptions] are
    the arguments themselves; the getters read the closure, not them. *)
Definition construct (free_ref : nat) : State :=
  mkState false None None VUndefined parameterObject free_ref [].

Definition call_convertValue (s : Schema.t) : M JsValue :=
  cf <- gets (fun st => ParameterObject.collectionFormat (heap st));;
  log (ConvertValue s cf raw);;
  lift (convertValue s cf raw).

(** [for (const oneOfSchema of schema.oneOf) { ... }] *)
Fixpoint oneOf_loop (alternatives : list Schema.t) : M unit :=
  match alternatives with
  | [] => ret tt
  | oneOfSchema :: later =>
      if is_str (Schema.type oneOfSchema) "null" then oneOf_loop later
      else
        v <- call_convertValue oneOfSchema;;
        assign_processedValue v;;
        pv <- gets processedValue;;
        if negb (strict_eq pv VUndefined) && negb (strict_eq pv raw)
        then ret tt
        else oneOf_loop later
  end.

(** The [try { ... } catch (err) { error = err; }] of [value]. *)
Definition coerce : M unit :=
  try_catch
    (match Schema.oneOf schema with
     | Some alternatives => oneOf_loop alternatives
     | None =>
         v <- call_convertValue schema;;
         assign_processedValue v
     end)
    (fun err => assign_error (Some err)).

(** The default values, used when there is neither a value nor an
    error. *)
Definition apply_defaults : M unit :=
  pv <- gets processedValue;;
  er <- gets error;;
  if isUndefined pv && is_none er then
    (if is_str (Schema.type schema) "array" then
       match Schema.items schema with
       | Some (ItemsTuple items) =>
           a <- new_array (collect_defaults items);;
           assign_processedValue a;;
           if every_undefined (collect_defaults items)
           then assign_processedValue VUndefined
           else ret tt
       | Some (ItemsSingle item) =>
           if negb (isUndefined (Schema.default item)) then
             a <- new_array [Schema.default item];;
             assign_processedValue a
           else ret tt
       | None => ret tt
       end
     else ret tt);;
    pv' <- gets processedValue;;
    if isUndefined pv' && negb (isUndefined (Schema.default schema))
    then assign_processedValue (Schema.default schema)
    else ret tt
  else ret tt.

(** The getter of [value]. *)
Definition get_value : M JsValue :=
  done <- gets processed;;
  (if negb done then
     (if is_str (Schema.type schema) "file"
      then assign_processedValue raw
      else coerce;; apply_defaults);;
     assign_processed true
   else ret tt);;
  gets processedValue.

(** [_.each(paths, function (value, key) { paths[escape(key)] = value; })]:
    the keys are listed once, each value is read when its key is
    visited. *)
Definition escape_keys (paths : Obj.t JsValue) : Obj.t JsValue :=
  fold_left
    (fun o key =>
       Obj.set (escapeSingleQuotes key)
               (match Obj.get key o with
                | Some value => value
                | None => VUndefined
                end) o)
    (Obj.keys paths) paths.

(** [escapePaths(parameterObject.pathObject.api.definition)]: the
    document is changed in place and returned. *)
Definition escapePaths : M Document.t :=
  p <- gets heap;;
  let doc := ParameterObject.api_definition p in
  let doc' := Document.with_paths (escape_keys (Document.paths doc)) doc in
  assign_heap (ParameterObject.with_api_definition doc' p);;
  ret doc'.

Definition call_validateAgainstSchema (doc : Document.t) (value : JsValue)
    (schemaPath : string) : M ValidationResult :=
  log (ValidateAgainstSchema doc value schemaPath validateOptions);;
  lift (validateAgainstSchema doc value schemaPath validateOptions).

Definition missing_required : JsError :=
  set_code "MISSING_REQUIRED_PARAMETER"
           (new_Error "Value is required but was not provided").

Definition schema_validation_failed (errs : list JsValue) : JsError :=
  set_errors errs
    (set_code "SCHEMA_VALIDATION_FAILED"
              (new_Error "Value failed JSON Schema validation")).

(** The chain of tests that sets [skipValidation]. *)
Definition skip_validation (value : JsValue) : M bool :=
  p <- gets heap;;
  if (is_none (ParameterObject.required p)
      || is_false (ParameterObject.required p)) && isUndefined value
  then ret true
  else if is_true (Schema.allowEmptyValue schema)
          && strict_eq value (VString "")
  then ret true
  else if is_str (ParameterObject.type p) "file" then ret true
  else if is_str (Schema.type schema) "string" then
    if is_date_format (Schema.format schema) && isDate value then ret true
    else if is_str (Schema.type schema) "string" then
      f <- lift (get_prop value "readUInt8");;
      ret (isFunction f)
    else ret false
  else ret (isFile schema).

(** The body of the [try] of [valid]. *)
Definition validate (value : JsValue) : M unit :=
  p <- gets heap;;
  (if is_true (ParameterObject.required p) && isUndefined value
   then throw missing_required
   else ret tt);;
  skipValidation <- skip_validation value;;
  result <-
    (if negb skipValidation then
       schemaObj <- escapePaths;;
       p' <- gets heap;;
       call_validateAgainstSchema schemaObj value
         (constructSchemaPathFromPtr (ParameterObject.ptr p')
            (ParameterObject.definition_schema p'))
     else ret (mkResult [] []));;
  if Nat.ltb 0 (length (errors result))
  then throw (schema_validation_failed (errors result))
  else ret tt.

(** [catch (err) { err.failedValidation = true;
    err.schemaPath = parameterObject.ptr; error = err; isValid = false; }] *)
Definition validation_failed (err : JsError) : M unit :=
  p <- gets heap;;
  assign_error
    (Some (set_schemaPath (ParameterObject.ptr p)
             (set_failedValidation true err)));;
  assign_isValid (Some false).

(** The getter of [valid]. *)
Definition get_valid : M (option bool) :=
  known <- gets isValid;;
  (if is_none known then
     assign_isValid (Some true);;
     value <- get_value;;
     er <- gets error;;
     if is_none er
     then try_catch (validate value) validation_failed
     else assign_isValid (Some false)
   else ret tt);;
  gets isValid.

(** The getter of [error]. *)
Definition get_error : M (option JsError) :=
  v <- get_valid;;
  if is_true v then ret None else gets error.

(** Reading one facet, and reading several in a row. *)
Definition read (f : Facet) : M Observation :=
  match f with
  | Value => v <- get_value;; ret (ObsValue v)
  | Valid => b <- get_valid;; ret (ObsValid b)
  | Error => e <- get_error;; ret (ObsError e)
  end.

Fixpoint reads (fs : list Facet) (st : State) : State :=
  match fs with
  | [] => st
  | f :: fs' => reads fs' (snd (read f st))
  end.

End ParameterValue.

(* ===================================================================== *)
(** ** Stand-ins for the helpers, and sample inputs *)
(* ===================================================================== *)

Module Sample.

Definition digit_of (c : ascii) : option Z :=
  let n := nat_of_ascii c in
  if Nat.leb 48 n && Nat.leb n 57 then Some (Z.of_nat (n - 48)) else None.

Fixpoint parse_digits (s : string) (acc : Z) : option Z :=
  match s with
  | EmptyString => Some acc
  | String c s' =>
      match digit_of c with
      | Some d => parse_digits s' (10 * acc + d)
      | None => None
      end
  end.

Definition parse_integer (s : string) : option Z :=
  match s with EmptyString => None | _ => parse_digits s 0 end.

(** The error a failed coercion throws. *)
Definition invalid_type (msg : string) : JsError :=
  set_code "INVALID_TYPE" (mkError "TypeError" msg None None None None).

(** Modelled from the spec: the coercion function per schema node
    ([helpers.convertValue], which is not among the sources):
    [(schema, {collectionFormat}, rawValue) -> coercedValue], may throw a
    coercion error.  An absent value stays absent; an integer or boolean
    schema converts a string that spells one; a value that cannot be
    converted throws. *)
Definition convertValue (s : Schema.t) (collectionFormat : option string)
    (v : JsValue) : Completion JsValue :=
  match v with
  | VUndefined => Normal VUndefined
  | _ =>
      if is_str (Schema.type s) "integer" then
        match v with
        | VNumber _ => Normal v
        | VString x =>
            match parse_integer x with
            | Some n => Normal (VNumber n)
            | None => Throw (invalid_type "Not a valid integer")
            end
        | _ => Throw (invalid_type "Not a valid integer")
        end
      else if is_str (Schema.type s) "boolean" then
        match v with
        | VBool _ => Normal v
        | VString x =>
            if String.eqb x "true" then Normal (VBool true)
            else if String.eqb x "false" then Normal (VBool false)
            else Throw (invalid_type "Not a valid boolean")
        | _ => Throw (invalid_type "Not a valid boolean")
        end
      else if is_str (Schema.type s) "string" then
        match v with
        | VString _ => Normal v
        | _ => Throw (invalid_type "Not a valid string")
        end
      else Normal v
  end.

(** Modelled from the spec: the file-type predicate ([helpers.isFile]). *)
Definition isFile (s : Schema.t) : bool := is_str (Schema.type s) "file".

Definition quote : ascii := "'"%char.
Definition backslash : ascii := "\"%char.

Fixpoint escape_after (escaped : bool) (s : string) : string :=
  match s with
  | EmptyString => EmptyString
  | String c s' =>
      if Ascii.eqb c quote then
        if escaped then String c (escape_after false s')
        else String backslash (String c (escape_after false s'))
      else String c (escape_after (Ascii.eqb c backslash) s')
  end.

(** Modelled from the spec: the path-key escaper
    ([helpers.escapeSingleQuotes]): it puts a backslash before every
    single quote that does not have one, so escaping twice is escaping
    once. *)
Definition escapeSingleQuotes (key : string) : string :=
  escape_after false key.

(** Modelled from the spec: the schema-path constructor
    ([helpers.constructSchemaPathFromPtr]), deterministic and pure. *)
Definition constructSchemaPathFromPtr (ptr : string)
    (definition_schema : option Schema.t) : string :=
  match definition_schema with
  | Some _ => ptr ++ "/schema"
  | None => ptr
  end.

(** Two validators: one accepts every value, one rejects every value
    with a single sub-error. *)
Definition accept_all (doc : Document.t) (value : JsValue)
    (schemaPath : string) (options : JsValue)
    : Completion ValidationResult :=
  Normal (mkResult [] []).

Definition reject_all (doc : Document.t) (value : JsValue)
    (schemaPath : string) (options : JsValue)
    : Completion ValidationResult :=
  Normal (mkResult [VString "INVALID_FORMAT"] []).

Definition schema_of (type : string) : Schema.t :=
  Schema.mk (Some type) None VUndefined None None None.

Definition schema_with_default (type : string) (d : JsValue) : Schema.t :=
  Schema.mk (Some type) None d None None None.

Definition schema_oneOf (alternatives : list Schema.t) (d : JsValue)
    : Schema.t :=
  Schema.mk None None d None (Some alternatives) None.

Definition empty_document : Document.t := Document.mk [] [].

Definition odata_document : Document.t :=
  Document.mk [("/users('{id}')", VObject 1 [])] [].

Definition parameter (s : Schema.t) (required : option bool)
    (doc : Document.t) : ParameterObject.t :=
  ParameterObject.mk s required (Schema.type s) None
                     "#/paths/~1pets/get/parameters/0" None doc.

(** The descriptors used in the examples below. *)
Definition required_integer : ParameterObject.t :=
  parameter (schema_of "integer") (Some true) empty_document.

Definition optional_integer : ParameterObject.t :=
  parameter (schema_of "integer") (Some false) empty_document.

Definition optional_integer_odata : ParameterObject.t :=
  parameter (schema_of "integer") (Some false) odata_document.

Definition required_file : ParameterObject.t :=
  parameter (schema_of "file") (Some true) empty_document.

Definition string_default_null : ParameterObject.t :=
  parameter (schema_with_default "string" VNull) None empty_document.

Definition string_or_integer : ParameterObject.t :=
  parameter (schema_oneOf [schema_of "string"; schema_of "integer"]
                          VUndefined) None empty_document.



Definition integer_default_7 : ParameterObject.t :=
  parameter (schema_oneOf [schema_of "integer"] (VNumber 7))
            None empty_document.

Definition tuple_items : list Schema.t :=
  [schema_with_default "integer" (VNumber 1); schema_of "integer"].

Definition tuple_array : ParameterObject.t :=
  parameter (Schema.mk (Some "array") None VUndefined
                       (Some (ItemsTuple tuple_items)) None None)
            None empty_document.

(** The getters of an instance built on the stand-ins, with no validation
    options. *)
Definition value_of (p : ParameterObject.t) (raw : JsValue) : M JsValue :=
  get_value convertValue p raw.

Definition coercion_of (p : ParameterObject.t) (raw : JsValue) : M unit :=
  coerce convertValue p raw.

Definition valid_of
    (validator : Document.t -> JsValue -> string -> JsValue
                 -> Completion ValidationResult)
    (p : ParameterObject.t) (raw : JsValue) : M (option bool) :=
  get_valid convertValue isFile escapeSingleQuotes
            constructSchemaPathFromPtr validator p raw VUndefined.

Definition error_of
    (validator : Document.t -> JsValue -> string -> JsValue
                 -> Completion ValidationResult)
    (p : ParameterObject.t) (raw : JsValue) : M (option JsError) :=
  get_error convertValue isFile escapeSingleQuotes
            constructSchemaPathFromPtr validator p raw VUndefined.

Definition reads_of
    (validator : Document.t -> JsValue -> string -> JsValue
                 -> Completion ValidationResult)
    (p : ParameterObject.t) (raw : JsValue) (fs : list Facet)
    : State :=
  reads convertValue isFile escapeSingleQuotes
        constructSchemaPathFromPtr validator p raw VUndefined fs
        (construct p 0).

(** More descriptors: a document that has been through [escapePaths], a
    date parameter whose default is a [Date], and two more [oneOf]s. *)
Definition shared_document : Document.t :=
  Document.mk [("/users('{id}')", VObject 1 []);
               ("/users(\'{id}\')", VObject 1 [])] [].

Definition optional_integer_shared : ParameterObject.t :=
  parameter (schema_of "integer") (Some false) shared_document.

Definition date_with_default : ParameterObject.t :=
  parameter (Schema.mk (Some "string") (Some "date") (VDate 3 0)
                       None None None)
            None empty_document.

Definition null_or_string : ParameterObject.t :=
  parameter (schema_oneOf [schema_of "null"; schema_of "string"]
                          VUndefined) None empty_document.

Definition only_null : ParameterObject.t :=
  parameter (schema_oneOf [schema_of "null"] (VNumber 7))
            None empty_document.

(** Two string schemas that meet [null]: one on a descriptor declared a
    file parameter, one whose [oneOf] first leaves the raw [null] as it
    is and then fails on it. *)
Definition string_null_in_file : ParameterObject.t :=
  ParameterObject.mk (schema_with_default "string" VNull) None
                     (Some "file") None
                     "#/paths/~1pets/get/parameters/0" None empty_document.

Definition string_untyped_or_integer : ParameterObject.t :=
  parameter (Schema.mk (Some "string") None VUndefined None
                       (Some [Schema.mk None None VUndefined None None None;
                              schema_of "integer"])
                       None)
            None empty_document.

End Sample.

(* ===================================================================== *)
(** ** Properties of the getters *)
(* ===================================================================== *)

Ltac run_monad :=
  unfold log, assign_processed, assign_error, assign_isValid,
    assign_processedValue, assign_heap, new_array;
  unfold bind, ret, gets, modify, lift, throw, try_catch;
  unfold with_processed, with_error, with_isValid, with_processedValue,
    with_heap, with_next_ref, with_trace;
  cbn [processed error isValid processedValue heap next_ref trace
       fst snd negb andb orb
       ParameterObject.schema ParameterObject.required ParameterObject.type
       ParameterObject.collectionFormat ParameterObject.ptr
       ParameterObject.definition_schema ParameterObject.api_definition
       ParameterObject.with_api_definition].

Section Properties.

Variable convertValue :
  Schema.t -> option string -> JsValue -> Completion JsValue.
Variable isFile : Schema.t -> bool.
Variable escapeSingleQuotes : string -> string.
Variable constructSchemaPathFromPtr : string -> option Schema.t -> string.
Variable validateAgainstSchema :
  Document.t -> JsValue -> string -> JsValue -> Completion ValidationResult.
Variable parameterObject : ParameterObject.t.
Variable raw : JsValue.
Variable validateOptions : JsValue.

Local Abbreviation the_schema := (schema parameterObject).
Local Abbreviation loop := (oneOf_loop convertValue raw).
Local Abbreviation coercion := (coerce convertValue parameterObject raw).
Local Abbreviation defaults := (apply_defaults parameterObject).
Local Abbreviation value := (get_value convertValue parameterObject raw).
Local Abbreviation validation :=
  (validate isFile escapeSingleQuotes constructSchemaPathFromPtr
            validateAgainstSchema parameterObject validateOptions).
Local Abbreviation valid :=
  (get_valid convertValue isFile escapeSingleQuotes
             constructSchemaPathFromPtr validateAgainstSchema
             parameterObject raw validateOptions).
Local Abbreviation error_of :=
  (get_error convertValue isFile escapeSingleQuotes
             constructSchemaPathFromPtr validateAgainstSchema
             parameterObject raw validateOptions).
Local Abbreviation read_facet :=
  (read convertValue isFile escapeSingleQuotes
        constructSchemaPathFromPtr validateAgainstSchema
        parameterObject raw validateOptions).
Local Abbreviation read_all :=
  (reads convertValue isFile escapeSingleQuotes
         constructSchemaPathFromPtr validateAgainstSchema
         parameterObject raw validateOptions).
Local Abbreviation fresh := (construct parameterObject).
Local Abbreviation cf := (ParameterObject.collectionFormat parameterObject).

(** An alternative is attempted unless its type is ['null']. *)
Definition attempted (alternatives : list Schema.t) : list Schema.t :=
  filter (fun s => negb (is_str (Schema.type s) "null")) alternatives.

(** A result ends the loop when it is defined and is not the raw
    value. *)
Definition accepted (v : JsValue) : bool :=
  negb (strict_eq v VUndefined) && negb (strict_eq v raw).

(** The most the coercion function can be called for one instance. *)
Definition max_conversions : nat :=
  if is_str (Schema.type the_schema) "file" then 0
  else match Schema.oneOf the_schema with
       | Some alternatives => length (attempted alternatives)
       | None => 1
       end.

Definition all_conversions (evs : list Event) : Prop :=
  Forall (fun e => is_ConvertValue e = true) evs.

(** What the [catch] of [valid] writes on the error it caught. *)
Definition stamped (e : JsError) : JsError :=
  set_schemaPath (ParameterObject.ptr parameterObject)
                 (set_failedValidation true e).

(** The descriptor once [escapePaths] has run. *)
Definition escaped_document : Document.t :=
  Document.with_paths
    (escape_keys escapeSingleQuotes
       (Document.paths (ParameterObject.api_definition parameterObject)))
    (ParameterObject.api_definition parameterObject).

Definition escaped : ParameterObject.t :=
  ParameterObject.with_api_definition escaped_document parameterObject.

(** The one call [valid] makes to the validator for the value [v]. *)
Definition validator_call (v : JsValue) : Event :=
  ValidateAgainstSchema escaped_document v
    (constructSchemaPathFromPtr
       (ParameterObject.ptr parameterObject)
       (ParameterObject.definition_schema parameterObject))
    validateOptions.

(** The [try] body of [valid], run from a state that holds nothing. *)
Definition validation_run (v : JsValue) : Completion unit * State :=
  validation v (mkState false None None VUndefined parameterObject 0 []).

(** How the verdict follows from the coerced value [pv] and the pending
    error [er]: with [b] the verdict, [er2] the final error, [h2] the
    heap and [evs2] the calls made by [valid] itself. *)
Definition verdict (pv : JsValue) (er : option JsError)
    (b : bool) (er2 : option JsError) (h2 : ParameterObject.t)
    (evs2 : list Event) : Prop :=
  match er with
  | Some _ => b = false /\ er2 = er /\ h2 = parameterObject /\ evs2 = []
  | None =>
      h2 = heap (snd (validation_run pv))
      /\ evs2 = trace (snd (validation_run pv))
      /\ match fst (validation_run pv) with
         | Normal _ => b = true /\ er2 = None
         | Throw err => b = false /\ er2 = Some (stamped err)
         end
  end.

(** What a read of facet [f] observes, given the coerced value, the
    verdict and the final error. *)
Definition answer (pv : JsValue) (b : bool) (er2 : option JsError)
    (f : Facet) : Observation :=
  match f with
  | Value => ObsValue pv
  | Valid => ObsValid (Some b)
  | Error => ObsError (if b then None else er2)
  end.

Definition nothing : State :=
  mkState false None None VUndefined parameterObject 0 [].

(** What an attempted alternative contributes: the value its coercion
    returns. *)
Definition result_of (s : Schema.t) : JsValue :=
  match convertValue s cf raw with
  | Normal v => v
  | Throw _ => VUndefined
  end.

(** The coercion of an alternative returns, but its result does not end
    the loop. *)
Definition rejected (s : Schema.t) : Prop :=
  exists v, convertValue s cf raw = Normal v /\ accepted v = false.

Definition conversion_of (s : Schema.t) : Event := ConvertValue s cf raw.

(** One visit of [_.each] in [escapePaths]. *)
Definition escape_step (o : Obj.t JsValue) (key : string) : Obj.t JsValue :=
  Obj.set (escapeSingleQuotes key)
          (match Obj.get key o with
           | Some value => value
           | None => VUndefined
           end) o.

Lemma collect_defaults_acc (items : list Schema.t) (acc : list JsValue) :
  fold_left (fun a item => a ++ [Schema.default item]) items acc
  = acc ++ map Schema.default items.
Proof.
  revert acc; induction items as [|i items IH]; intros acc; cbn.
  - now rewrite app_nil_r.
  - rewrite IH, <- app_assoc. reflexivity.
Qed.

Lemma collect_defaults_map (items : list Schema.t) :
  collect_defaults items = map Schema.default items.
Proof. unfold collect_defaults. now rewrite collect_defaults_acc. Qed.

Lemma every_undefined_Forall (l : list Schema.t) :
  every_undefined (map Schema.default l) = true
  <-> Forall (fun s => Schema.default s = VUndefined) l.
Proof.
  unfold every_undefined. rewrite forallb_forall, Forall_forall. split.
  - intros H s Hs.
    assert (isUndefined (Schema.default s) = true) as E
      by (apply H, in_map, Hs).
    destruct (Schema.default s); cbn in E; congruence.
  - intros H v Hv. apply in_map_iff in Hv as (s & <- & Hs).
    now rewrite (H s Hs).
Qed.

Lemma isUndefined_true (v : JsValue) : isUndefined v = true <-> v = VUndefined.
Proof. destruct v; cbn; split; congruence. Qed.


Lemma loop_summary (alternatives : list Schema.t) :
  forall pv0, exists c pv evs,
    (forall p e iv n t,
        loop alternatives (mkState p e iv pv0 parameterObject n t)
        = (c, mkState p e iv pv parameterObject n (t ++ evs)))
    /\ all_conversions evs
    /\ length evs <= length (attempted alternatives).
Proof.
  induction alternatives as [|s later IH]; intros pv0.
  - exists (Normal tt), pv0, []. repeat split.
    + intros. cbn. now rewrite app_nil_r.
    + constructor.
    + cbn. lia.
  - unfold attempted in *. cbn [oneOf_loop filter].
    destruct (is_str (Schema.type s) "null") eqn:Enull; cbn [negb].
    + exact (IH pv0).
    + destruct (convertValue s cf raw) as [v|err] eqn:Ecv.
      * destruct (accepted v) eqn:Eacc.
        -- exists (Normal tt), v, [ConvertValue s cf raw]. repeat split.
           ++ intros. unfold call_convertValue. run_monad.
              rewrite Ecv. unfold accepted in Eacc. now rewrite Eacc.
           ++ repeat constructor.
           ++ cbn. lia.
        -- destruct (IH v) as (c & pv & evs & Hrun & Hall & Hlen).
           exists c, pv, (ConvertValue s cf raw :: evs). repeat split.
           ++ intros. unfold call_convertValue. run_monad.
              rewrite Ecv. unfold accepted in Eacc. rewrite Eacc.
              rewrite Hrun, <- app_assoc. reflexivity.
           ++ constructor; [reflexivity | exact Hall].
           ++ cbn. lia.
      * exists (Throw err), pv0, [ConvertValue s cf raw]. repeat split.
        -- intros. unfold call_convertValue. run_monad. now rewrite Ecv.
        -- repeat constructor.
        -- cbn. lia.
Qed.

Lemma defaults_summary (pv : JsValue) (er : option JsError) (n : nat) :
  exists pv' n',
    forall p iv t,
      defaults (mkState p er iv pv parameterObject n t)
      = (Normal tt, mkState p er iv pv' parameterObject n' t).
Proof.
  pose (s0 := snd (defaults (mkState false er None pv parameterObject n []))).
  exists (processedValue s0), (next_ref s0). subst s0.
  intros. unfold apply_defaults. run_monad.
  destruct (isUndefined pv) eqn:E1, (is_none er) eqn:E1'; run_monad;
    try reflexivity.
  destruct (is_str (Schema.type the_schema) "array"); run_monad.
  - destruct (Schema.items the_schema) as [[item|items]|]; run_monad.
    + destruct (isUndefined (Schema.default item)); run_monad.
      * rewrite E1. run_monad.
        destruct (isUndefined (Schema.default the_schema)); reflexivity.
      * reflexivity.
    + destruct (every_undefined (collect_defaults items)); run_monad.
      * destruct (isUndefined (Schema.default the_schema)); reflexivity.
      * reflexivity.
    + rewrite E1. run_monad.
      destruct (isUndefined (Schema.default the_schema)); reflexivity.
  - rewrite E1. run_monad.
    destruct (isUndefined (Schema.default the_schema)); reflexivity.
Qed.

Lemma coercion_summary :
  exists pv er evs,
    (forall p iv n t,
        coercion (mkState p None iv VUndefined parameterObject n t)
        = (Normal tt, mkState p er iv pv parameterObject n (t ++ evs)))
    /\ all_conversions evs
    /\ length evs
       <= match Schema.oneOf the_schema with
          | Some alternatives => length (attempted alternatives)
          | None => 1
          end.
Proof.
  unfold coerce. destruct (Schema.oneOf the_schema) as [alts|].
  - destruct (loop_summary alts VUndefined)
      as (c & pv & evs & Hrun & Hall & Hlen).
    destruct c as [[]|err].
    + exists pv, None, evs. repeat split; try assumption.
      intros. unfold try_catch. now rewrite Hrun.
    + exists pv, (Some err), evs. repeat split; try assumption.
      intros. unfold try_catch. now rewrite Hrun.
  - destruct (convertValue the_schema cf raw) as [v|err] eqn:Ecv.
    + exists v, None, [ConvertValue the_schema cf raw]. repeat split.
      * intros. unfold call_convertValue. run_monad. now rewrite Ecv.
      * repeat constructor.
      * cbn. lia.
    + exists VUndefined, (Some err), [ConvertValue the_schema cf raw].
      repeat split.
      * intros. unfold call_convertValue. run_monad. now rewrite Ecv.
      * repeat constructor.
      * cbn. lia.
Qed.

(** The first read of [value]: it returns, sets [processed], and touches
    neither [isValid] nor the heap; the only calls are conversions. *)
Lemma value_first (n : nat) :
  exists pv er evs n',
    (forall iv t,
        value (mkState false None iv VUndefined parameterObject n t)
        = (Normal pv, mkState true er iv pv parameterObject n' (t ++ evs)))
    /\ all_conversions evs
    /\ length evs <= max_conversions.
Proof.
  unfold get_value, max_conversions.
  destruct (is_str (Schema.type the_schema) "file") eqn:Efile.
  - exists raw, None, [], n. repeat split.
    + intros. run_monad. now rewrite app_nil_r.
    + constructor.
    + cbn. lia.
  - destruct coercion_summary as (pv & er & evs & Hrun & Hall & Hlen).
    destruct (defaults_summary pv er n) as (pv' & n' & Hdef).
    exists pv', er, evs, n'. repeat split; try assumption.
    intros. run_monad.
    rewrite Hrun. run_monad. rewrite Hdef. reflexivity.
Qed.

(** A later read of [value] returns the cached value and changes
    nothing. *)
Lemma value_cached (st : State) :
  processed st = true -> value st = (Normal (processedValue st), st).
Proof.
  intros H. unfold get_value. run_monad. rewrite H. reflexivity.
Qed.

(** *** The validator *)

Ltac split_cases :=
  repeat (run_monad;
          match goal with
          | |- context [get_prop ?x ?k] => destruct (get_prop x k) eqn:?
          | |- context [validateAgainstSchema ?d ?x ?k ?o] =>
              destruct (validateAgainstSchema d x k o) eqn:?
          | |- context [if ?b then _ else _] => destruct b eqn:?
          | |- context [match ?x with _ => _ end] => destruct x eqn:?
          end).

(** The body reads the closure variables of no one: it only returns or
    throws, and either leaves the heap alone or escapes the paths and
    calls the validator once. *)
Lemma validation_frame (v : JsValue) p e iv pv n t :
  validation v (mkState p e iv pv parameterObject n t)
  = (fst (validation_run v),
     mkState p e iv pv (heap (snd (validation_run v))) n
             (t ++ trace (snd (validation_run v))))
  /\ ((heap (snd (validation_run v)) = parameterObject
       /\ trace (snd (validation_run v)) = [])
      \/ (heap (snd (validation_run v)) = escaped
          /\ trace (snd (validation_run v)) = [validator_call v])).
Proof.
  unfold validation_run, validate, skip_validation, escapePaths,
    call_validateAgainstSchema.
  split_cases; cbn [app]; rewrite ?app_nil_r;
    (split; [reflexivity | first [left; split; reflexivity
                                 | right; split; reflexivity]]).
Qed.

(** *** The three states of an instance *)

Lemma valid_cached (st : State) (b : bool) :
  isValid st = Some b -> valid st = (Normal (Some b), st).
Proof.
  intros H. unfold get_valid. run_monad. rewrite H. cbn [is_none].
  run_monad. now rewrite H.
Qed.

Lemma error_cached (st : State) (b : bool) :
  isValid st = Some b ->
  error_of st = (Normal (if b then None else error st), st).
Proof.
  intros H. unfold get_error, bind. rewrite (valid_cached st b H).
  destruct b; reflexivity.
Qed.

(** The first read of [valid], in terms of [value] and the [try] body. *)
Lemma valid_unfold p e pv h n t :
  valid (mkState p e None pv h n t)
  = match value (mkState p e (Some true) pv h n t) with
    | (Normal v, s) =>
        if is_none (error s) then
          match validation v s with
          | (Normal _, s') => (Normal (isValid s'), s')
          | (Throw err, s') =>
              (Normal (Some false),
               with_isValid (Some false)
                 (with_error
                    (Some (set_schemaPath (ParameterObject.ptr (heap s'))
                             (set_failedValidation true err))) s'))
          end
        else (Normal (Some false), with_isValid (Some false) s)
    | (Throw err, s) => (Throw err, s)
    end.
Proof.
  unfold get_valid, validation_failed. run_monad. cbn [is_none].
  run_monad.
  destruct (value _) as [[v|err] s]; [|reflexivity].
  destruct (is_none (error s)); run_monad; [|reflexivity].
  destruct (validation v s) as [[[]|err] s']; reflexivity.
Qed.

(** Every instance goes through at most three states: as constructed,
    after [value], and after [valid]. *)
Lemma lifecycle (n : nat) :
  exists pv er evs n' b er2 h2 evs2,
    let s1 := mkState true er None pv parameterObject n' evs in
    let s2 := mkState true er2 (Some b) pv h2 n' (evs ++ evs2) in
    value (fresh n) = (Normal pv, s1)
    /\ valid (fresh n) = (Normal (Some b), s2)
    /\ valid s1 = (Normal (Some b), s2)
    /\ all_conversions evs
    /\ length evs <= max_conversions
    /\ verdict pv er b er2 h2 evs2
    /\ ((h2 = parameterObject /\ evs2 = [])
        \/ (h2 = escaped /\ evs2 = [validator_call pv])).
Proof.
  destruct (value_first n) as (pv & er & evs & n' & Hval & Hall & Hlen).
  pose proof (Hval None []) as Hv1. pose proof (Hval (Some true) []) as Hv2.
  cbn [app] in Hv1, Hv2.
  assert (exists b er2 h2 evs2,
             valid (mkState true er None pv parameterObject n' evs)
             = (Normal (Some b),
                mkState true er2 (Some b) pv h2 n' (evs ++ evs2))
             /\ verdict pv er b er2 h2 evs2
             /\ ((h2 = parameterObject /\ evs2 = [])
                 \/ (h2 = escaped /\ evs2 = [validator_call pv])))
    as (b & er2 & h2 & evs2 & Hvalid & Hverdict & Hheap).
  { rewrite valid_unfold, value_cached by reflexivity.
    cbn [processedValue error]. unfold verdict.
    destruct er as [e0|]; cbn [is_none].
    - exists false, (Some e0), parameterObject, [].
      rewrite app_nil_r. repeat split; auto.
    - destruct (validation_frame pv true None (Some true) pv n' evs)
        as [Hrun Hside].
      rewrite Hrun.
      destruct (validation_run pv) as [[[]|err] sv] eqn:Erun;
        cbn [fst snd] in *.
      + exists true, None, (heap sv), (trace sv). repeat split; auto.
      + exists false, (Some (stamped err)), (heap sv), (trace sv).
        split; [|repeat split; auto].
        unfold stamped. run_monad.
        destruct Hside as [[-> _]|[-> _]]; reflexivity. }
  exists pv, er, evs, n', b, er2, h2, evs2. cbn zeta.
  repeat split; try assumption.
  unfold construct. rewrite valid_unfold, Hv2.
  rewrite valid_unfold, value_cached in Hvalid by reflexivity.
  exact Hvalid.
Qed.

(** What each getter returns in each of the three states. *)
Lemma getters_by_state (n : nat) :
  exists pv er evs n' b er2 h2 evs2,
    let s1 := mkState true er None pv parameterObject n' evs in
    let s2 := mkState true er2 (Some b) pv h2 n' (evs ++ evs2) in
    let e2 := if b then None else er2 in
    (value (fresh n) = (Normal pv, s1)
     /\ value s1 = (Normal pv, s1)
     /\ value s2 = (Normal pv, s2))
    /\ (valid (fresh n) = (Normal (Some b), s2)
        /\ valid s1 = (Normal (Some b), s2)
        /\ valid s2 = (Normal (Some b), s2))
    /\ (error_of (fresh n) = (Normal e2, s2)
        /\ error_of s1 = (Normal e2, s2)
        /\ error_of s2 = (Normal e2, s2))
    /\ all_conversions evs
    /\ length evs <= max_conversions
    /\ verdict pv er b er2 h2 evs2
    /\ ((h2 = parameterObject /\ evs2 = [])
        \/ (h2 = escaped /\ evs2 = [validator_call pv])).
Proof.
  destruct (lifecycle n)
    as (pv & er & evs & n' & b & er2 & h2 & evs2 & Hv & Hd0 & Hd1 & Hrest).
  exists pv, er, evs, n', b, er2, h2, evs2. cbn zeta in *.
  assert (valid (mkState true er2 (Some b) pv h2 n' (evs ++ evs2))
          = (Normal (Some b), mkState true er2 (Some b) pv h2 n' (evs ++ evs2)))
    as Hd2 by (now apply valid_cached).
  assert (value (mkState true er None pv parameterObject n' evs)
          = (Normal pv, mkState true er None pv parameterObject n' evs))
    as Hv1 by (now rewrite value_cached).
  assert (value (mkState true er2 (Some b) pv h2 n' (evs ++ evs2))
          = (Normal pv, mkState true er2 (Some b) pv h2 n' (evs ++ evs2)))
    as Hv2 by (now rewrite value_cached).
  unfold get_error, bind. rewrite Hd0, Hd1, Hd2. cbn [is_true].
  destruct b; tauto.
Qed.

(** Any sequence of reads moves through the three states in order, and
    every read of a facet observes the same answer. *)
Lemma instance_states (n : nat) :
  exists pv er evs n' b er2 h2 evs2,
    let s1 := mkState true er None pv parameterObject n' evs in
    let s2 := mkState true er2 (Some b) pv h2 n' (evs ++ evs2) in
    let next f s := match f with Value => s | _ => s2 end in
    (forall f, read_facet f (fresh n)
               = (Normal (answer pv b er2 f), next f s1))
    /\ (forall f, read_facet f s1 = (Normal (answer pv b er2 f), next f s1))
    /\ (forall f, read_facet f s2 = (Normal (answer pv b er2 f), s2))
    /\ (forall fs, read_all fs (fresh n) = fresh n
                   \/ read_all fs (fresh n) = s1
                   \/ read_all fs (fresh n) = s2)
    /\ (forall fs, read_all fs s1 = s1 \/ read_all fs s1 = s2)
    /\ (forall fs, read_all fs s2 = s2)
    /\ value (fresh n) = (Normal pv, s1)
    /\ (forall fs,
           valid (read_all fs (fresh n)) = (Normal (Some b), s2)
           /\ error_of (read_all fs (fresh n))
              = (Normal (if b then None else er2), s2))
    /\ all_conversions evs
    /\ length evs <= max_conversions
    /\ verdict pv er b er2 h2 evs2
    /\ ((h2 = parameterObject /\ evs2 = [])
        \/ (h2 = escaped /\ evs2 = [validator_call pv])).
Proof.
  destruct (getters_by_state n)
    as (pv & er & evs & n' & b & er2 & h2 & evs2
        & (Hv0 & Hv1 & Hv2) & (Hd0 & Hd1 & Hd2) & (He0 & He1 & He2)
        & Hrest).
  exists pv, er, evs, n', b, er2, h2, evs2. cbn zeta in *.
  set (s1 := mkState true er None pv parameterObject n' evs) in *.
  set (s2 := mkState true er2 (Some b) pv h2 n' (evs ++ evs2)) in *.
  assert (forall f, read_facet f (fresh n)
                    = (Normal (answer pv b er2 f),
                       match f with Value => s1 | _ => s2 end)) as R0.
  { intros []; unfold read, bind; rewrite ?Hv0, ?Hd0, ?He0; reflexivity. }
  assert (forall f, read_facet f s1
                    = (Normal (answer pv b er2 f),
                       match f with Value => s1 | _ => s2 end)) as R1.
  { intros []; unfold read, bind; rewrite ?Hv1, ?Hd1, ?He1; reflexivity. }
  assert (forall f, read_facet f s2 = (Normal (answer pv b er2 f), s2))
    as R2.
  { intros []; unfold read, bind; rewrite ?Hv2, ?Hd2, ?He2; reflexivity. }
  assert (forall fs, read_all fs s2 = s2) as C2.
  { induction fs as [|f fs IH]; cbn [reads]; [reflexivity|].
    now rewrite R2. }
  assert (forall fs, read_all fs s1 = s1 \/ read_all fs s1 = s2) as C1.
  { induction fs as [|f fs IH]; cbn [reads]; [now left|].
    rewrite R1. destruct f; cbn [snd]; auto. }
  assert (forall fs, read_all fs (fresh n) = fresh n
                     \/ read_all fs (fresh n) = s1
                     \/ read_all fs (fresh n) = s2) as C0.
  { intros [|f fs]; cbn [reads]; [now left|].
    rewrite R0. right. destruct f; cbn [snd]; auto. }
  assert (forall fs,
             valid (read_all fs (fresh n)) = (Normal (Some b), s2)
             /\ error_of (read_all fs (fresh n))
                = (Normal (if b then None else er2), s2)) as G.
  { intros fs. destruct (C0 fs) as [-> | [-> | ->]]; split; assumption. }
  repeat split; try assumption; try apply G; tauto.
Qed.

Lemma reads_app (fs gs : list Facet) (st : State) :
  read_all (fs ++ gs) st = read_all gs (read_all fs st).
Proof.
  revert st; induction fs as [|f fs IH]; intros st; cbn [reads app];
    [reflexivity | apply IH].
Qed.

Lemma count_calls (evs evs2 : list Event) :
  all_conversions evs ->
  evs2 = [] \/ (exists d v k o, evs2 = [ValidateAgainstSchema d v k o]) ->
  length (filter is_ConvertValue evs) = length evs
  /\ length (filter is_ValidateAgainstSchema evs) = 0
  /\ length (filter is_ConvertValue (evs ++ evs2)) = length evs
  /\ length (filter is_ValidateAgainstSchema (evs ++ evs2)) = length evs2.
Proof.
  intros Hall Hevs2. rewrite !filter_app, !length_app.
  assert (filter is_ConvertValue evs = evs
          /\ filter is_ValidateAgainstSchema evs = []) as [-> ->].
  { induction Hall as [|e evs He _ [IH1 IH2]]; [split; reflexivity|].
    cbn [filter]. rewrite He, IH1, IH2.
    destruct e; cbn in *; [split; reflexivity | discriminate]. }
  destruct Hevs2 as [->|(d & v & k & o & ->)]; cbn; lia.
Qed.


(** *** The facets are computed once *)

(** C1: from a new instance, after any reads [fs1], a read
    of facet [f] returns, and reading [f] again after any further reads
    [fs2] returns the same answer; once any facet has been read the
    coercion function is never called again, and once [valid] or [error]
    has been read no read changes the state at all.  Over the whole life
    of the instance the coercion function is called at most
    [max_conversions] times: never for a file schema, at most once for a
    schema without [oneOf], at most once per alternative whose type is
    not ['null'] otherwise; the validator is called at most once. *)
Theorem C1_facets_computed_once (n : nat) (fs1 fs2 : list Facet)
    (f : Facet) :
  let st1 := read_all fs1 (fresh n) in
  let st2 := snd (read_facet f st1) in
  let st3 := read_all fs2 st2 in
  (exists o, fst (read_facet f st1) = Normal o
             /\ fst (read_facet f st3) = Normal o)
  /\ conversions st3 = conversions st2
  /\ (f <> Value -> st3 = st2)
  /\ conversions st3 <= max_conversions
  /\ (Schema.oneOf the_schema = None -> conversions st3 <= 1)
  /\ validations st3 <= 1.
Proof.
  destruct (instance_states n)
    as (pv & er & evs & n' & b & er2 & h2 & evs2
        & R0 & R1 & R2 & C0 & C1 & C2 & Hv & G & Hall & Hlen & Hverdict
        & Hside).
  cbn zeta in *.
  set (s1 := mkState true er None pv parameterObject n' evs) in *.
  set (s2 := mkState true er2 (Some b) pv h2 n' (evs ++ evs2)) in *.
  assert (evs2 = []
          \/ exists d v k o, evs2 = [ValidateAgainstSchema d v k o])
    as Hevs2.
  { destruct Hside as [[_ ->]|[_ ->]]; [now left|right].
    unfold validator_call. eauto. }
  destruct (count_calls evs evs2 Hall Hevs2) as (K1 & K2 & K3 & K4).
  assert (conversions s1 = length evs /\ conversions s2 = length evs
          /\ validations s1 = 0 /\ validations s2 = length evs2)
    as (Q1 & Q2 & Q3 & Q4) by (unfold conversions, validations; cbn; auto).
  assert (length evs2 <= 1) as Hone
      by (destruct Hevs2 as [->|(d & v & k & o & ->)]; cbn; lia).
  assert (max_conversions <= 1 \/ Schema.oneOf the_schema <> None) as Hmax.
  { unfold max_conversions.
    destruct (is_str (Schema.type the_schema) "file"); [left; lia|].
    destruct (Schema.oneOf the_schema); [right; discriminate | left; lia]. }
  assert (forall st, st = s1 \/ st = s2 ->
            conversions st = length evs /\ validations st <= 1) as Hcount.
  { intros st [-> | ->]; split; lia. }
  assert (forall st g,
             st = fresh n \/ st = s1 \/ st = s2 ->
             fst (read_facet g st) = Normal (answer pv b er2 g)
             /\ (snd (read_facet g st) = s1
                 \/ snd (read_facet g st) = s2)
             /\ (g <> Value -> snd (read_facet g st) = s2)) as Hread.
  { intros st g [-> | [-> | ->]]; rewrite ?R0, ?R1, ?R2; cbn [fst snd];
      destruct g; repeat split; auto; congruence. }
  destruct (Hread _ f (C0 fs1)) as (A1 & A2 & A3).
  assert (read_all fs2 (snd (read_facet f (read_all fs1 (fresh n)))) = s1
          /\ snd (read_facet f (read_all fs1 (fresh n))) = s1
          \/ read_all fs2 (snd (read_facet f (read_all fs1 (fresh n)))) = s2)
    as Hst3.
  { destruct A2 as [-> | ->].
    - destruct (C1 fs2) as [-> | ->]; auto.
    - rewrite C2. auto. }
  assert (forall st, st = s1 \/ st = s2 -> st = fresh n \/ st = s1 \/ st = s2)
    as Hweak by tauto.
  repeat split.
  - exists (answer pv b er2 f). split; [exact A1|].
    apply Hread. destruct Hst3 as [[-> _] | ->]; tauto.
  - destruct Hst3 as [[-> ->] | ->]; [reflexivity|].
    destruct A2 as [-> | ->]; lia.
  - intros Hf. rewrite (A3 Hf). apply C2.
  - destruct Hst3 as [[-> _] | ->]; lia.
  - intros Hone'. destruct Hmax as [Hmax|Hmax]; [|congruence].
    destruct Hst3 as [[-> _] | ->]; lia.
  - destruct Hst3 as [[-> _] | ->]; lia.
Qed.

(** *** The error surface *)


(** *** From the coerced value to the verdict *)

(** With no pending error the verdict is the outcome of the [try] body
    on the coerced value. *)
Lemma verdict_of_run (n : nat) (fs : list Facet) (v : JsValue)
    (st1 : State) :
  value (fresh n) = (Normal v, st1) ->
  error st1 = None ->
  exists st2,
    match fst (validation_run v) with
    | Normal _ =>
        valid (read_all fs (fresh n)) = (Normal (Some true), st2)
        /\ error_of (read_all fs (fresh n)) = (Normal None, st2)
    | Throw err =>
        valid (read_all fs (fresh n)) = (Normal (Some false), st2)
        /\ error_of (read_all fs (fresh n))
           = (Normal (Some (stamped err)), st2)
    end
    /\ heap st2 = heap (snd (validation_run v))
    /\ validations st2 = length (trace (snd (validation_run v)))
    /\ conversions st2 = conversions st1.
Proof.
  intros Hvalue Herr.
  destruct (instance_states n)
    as (pv & er & evs & n' & b & er2 & h2 & evs2
        & R0 & R1 & R2 & C0 & C1 & C2 & Hv & G & Hall & Hlen & Hverdict
        & Hside).
  cbn zeta in *. rewrite Hv in Hvalue.
  injection Hvalue as -> <-. cbn [error] in Herr. subst er.
  destruct (G fs) as [Gd Ge]. rewrite Gd, Ge.
  assert (evs2 = []
          \/ exists d v k o, evs2 = [ValidateAgainstSchema d v k o])
    as Hevs2.
  { destruct Hside as [[_ ->]|[_ ->]]; [now left|right].
    unfold validator_call. eauto. }
  destruct (count_calls evs evs2 Hall Hevs2) as (K1 & K2 & K3 & K4).
  unfold verdict in Hverdict. destruct Hverdict as (Hh & He & Hc).
  eexists. split; [|split; [|split]].
  - destruct (fst (validation_run v)) as [[]|err];
      destruct Hc as [-> ->]; split; reflexivity.
  - exact Hh.
  - unfold validations. cbn [trace]. now rewrite K4, He.
  - unfold conversions. cbn [trace]. now rewrite K3, K1.
Qed.

(** A pending coercion error is the final error, as it was thrown. *)
Lemma verdict_of_pending (n : nat) (fs : list Facet) (v : JsValue)
    (st1 : State) (e0 : JsError) :
  value (fresh n) = (Normal v, st1) ->
  error st1 = Some e0 ->
  exists st2,
    valid (read_all fs (fresh n)) = (Normal (Some false), st2)
    /\ error_of (read_all fs (fresh n)) = (Normal (Some e0), st2)
    /\ heap st2 = parameterObject
    /\ validations st2 = 0.
Proof.
  intros Hvalue Herr.
  destruct (instance_states n)
    as (pv & er & evs & n' & b & er2 & h2 & evs2
        & R0 & R1 & R2 & C0 & C1 & C2 & Hv & G & Hall & Hlen & Hverdict
        & Hside).
  cbn zeta in *. rewrite Hv in Hvalue.
  injection Hvalue as -> <-. cbn [error] in Herr. subst er.
  destruct (G fs) as [Gd Ge]. rewrite Gd, Ge.
  unfold verdict in Hverdict. destruct Hverdict as (-> & -> & -> & ->).
  destruct (count_calls evs [] Hall (or_introl eq_refl))
    as (K1 & K2 & K3 & K4).
  eexists. repeat split.
  unfold validations. cbn [trace]. now rewrite K4.
Qed.

Lemma is_str_false (o : option string) (lit : string) :
  o <> Some lit -> is_str o lit = false.
Proof.
  destruct o as [s|]; cbn; [|reflexivity].
  intros H. apply String.eqb_neq. congruence.
Qed.

Lemma is_str_true (o : option string) (lit : string) :
  o = Some lit -> is_str o lit = true.
Proof. intros ->. cbn. apply String.eqb_refl. Qed.

(** Required and absent: the body throws before anything else. *)
Lemma validation_missing :
  ParameterObject.required parameterObject = Some true ->
  validation_run VUndefined = (Throw missing_required, nothing).
Proof.
  intros Hreq. unfold validation_run, validate. run_monad.
  rewrite Hreq. reflexivity.
Qed.

Ltac run_with H :=
  repeat (progress (run_monad; cbn; rewrite ?H)).

(** The cases in which the validator is skipped and nothing is thrown. *)
Lemma validation_skipped (v : JsValue) :
  (ParameterObject.required parameterObject <> Some true
   /\ v = VUndefined)
  \/ (Schema.allowEmptyValue the_schema = Some true /\ v = VString "")
  \/ (ParameterObject.type parameterObject = Some "file"
      /\ ~ (ParameterObject.required parameterObject = Some true
            /\ v = VUndefined)) ->
  validation_run v = (Normal tt, nothing).
Proof.
  intros Hcase. unfold validation_run, validate, skip_validation.
  destruct Hcase as [[Hreq ->] | [[Hallow ->] | [Htype Hnot]]].
  - destruct (ParameterObject.required parameterObject) as [[]|] eqn:E;
      [congruence | |]; run_with E; reflexivity.
  - destruct (ParameterObject.required parameterObject) as [[]|] eqn:E;
      run_with E; rewrite Hallow; reflexivity.
  - pose proof (is_str_true _ _ Htype) as Hfile.
    destruct (ParameterObject.required parameterObject) as [[]|] eqn:E;
      destruct (isUndefined v) eqn:Hv;
      try (apply isUndefined_true in Hv; tauto);
      run_with E; rewrite ?Hv; run_with E;
      destruct (is_true (Schema.allowEmptyValue the_schema)
                && strict_eq v (VString ""));
      run_with E; rewrite ?Hfile; reflexivity.
Qed.

(** A string schema and a [null] value: probing [value.readUInt8]
    throws. *)
Lemma validation_null :
  Schema.type the_schema = Some "string" ->
  ParameterObject.type parameterObject <> Some "file" ->
  validation_run VNull
  = (Throw (TypeError_read "readUInt8" "null"), nothing).
Proof.
  intros Hstring Hfile. unfold validation_run, validate, skip_validation.
  pose proof (is_str_false _ _ Hfile) as Hfile'.
  pose proof (is_str_true _ _ Hstring) as Hstring'.
  destruct (ParameterObject.required parameterObject) as [[]|] eqn:E;
    run_with E;
    destruct (is_true (Schema.allowEmptyValue the_schema));
    run_with E; rewrite Hfile', Hstring';
    destruct (is_date_format (Schema.format the_schema)); reflexivity.
Qed.

(** When the validator is called, the body throws exactly when the
    validator throws or reports errors. *)
Lemma validation_called (v : JsValue) :
  trace (snd (validation_run v)) = [validator_call v] ->
  heap (snd (validation_run v)) = escaped
  /\ match validateAgainstSchema escaped_document v
             (constructSchemaPathFromPtr
                (ParameterObject.ptr parameterObject)
                (ParameterObject.definition_schema parameterObject))
             validateOptions with
     | Normal res =>
         (errors res = [] /\ fst (validation_run v) = Normal tt)
         \/ (errors res <> []
             /\ fst (validation_run v)
                = Throw (schema_validation_failed (errors res)))
     | Throw err => fst (validation_run v) = Throw err
     end.
Proof.
  unfold validation_run, validate, skip_validation, escapePaths,
    call_validateAgainstSchema, escaped, escaped_document.
  split_cases; cbn [app fst snd trace heap]; intros Htrace;
    try discriminate Htrace; (split; [reflexivity|]);
    repeat match goal with
           | H : Normal _ = Normal _ |- _ => injection H as H; subst
           | H : Throw _ = Throw _ |- _ => injection H as H; subst
           | H : Normal _ = Throw _ |- _ => discriminate H
           | H : Throw _ = Normal _ |- _ => discriminate H
           end;
    try reflexivity;
    match goal with
    | H : Nat.ltb 0 (length (errors ?r)) = true |- _ =>
        right; split; [|reflexivity];
        destruct (errors r); [discriminate H | discriminate]
    | H : Nat.ltb 0 (length (errors ?r)) = false |- _ =>
        left; split; [|reflexivity];
        destruct (errors r); [reflexivity | discriminate H]
    end.
Qed.

(** *** The verdicts of the validator *)

(** C4: when the descriptor has [required === true], the
    coerced value is [undefined] and no coercion error was captured,
    reading [valid] (after any reads) returns false, the validator is
    not called, and [error] is the missing-required error, whose code
    ['MISSING_REQUIRED_PARAMETER'] is not that of a schema-validation
    failure. *)
Theorem C4_missing_required (n : nat) (fs : list Facet) (st1 : State) :
  ParameterObject.required parameterObject = Some true ->
  value (fresh n) = (Normal VUndefined, st1) ->
  error st1 = None ->
  exists st2,
    valid (read_all fs (fresh n)) = (Normal (Some false), st2)
    /\ error_of (read_all fs (fresh n))
       = (Normal (Some (stamped missing_required)), st2)
    /\ e_code (stamped missing_required)
       = Some "MISSING_REQUIRED_PARAMETER"
    /\ e_code (stamped missing_required)
       <> Some "SCHEMA_VALIDATION_FAILED"
    /\ validations st2 = 0.
Proof.
  intros Hreq Hvalue Herr.
  destruct (verdict_of_run n fs VUndefined st1 Hvalue Herr)
    as (st2 & Hrun & _ & Hcalls & _).
  rewrite (validation_missing Hreq) in Hrun, Hcalls.
  cbn [fst snd trace nothing length] in Hrun, Hcalls.
  destruct Hrun as [Hd He].
  exists st2. repeat split; try assumption. discriminate.
Qed.

(** C5: provided no coercion error was captured, [valid]
    is true and the validator is never called (so the document is left
    as it was) when the descriptor is not required and the coerced value
    is [undefined], or the schema has [allowEmptyValue === true] and the
    coerced value is the empty string, or the descriptor is a file
    parameter that is not both required and [undefined]. *)
Theorem C5_validation_skipped (n : nat) (fs : list Facet) (v : JsValue)
    (st1 : State) :
  value (fresh n) = (Normal v, st1) ->
  error st1 = None ->
  (ParameterObject.required parameterObject <> Some true
   /\ v = VUndefined)
  \/ (Schema.allowEmptyValue the_schema = Some true /\ v = VString "")
  \/ (ParameterObject.type parameterObject = Some "file"
      /\ ~ (ParameterObject.required parameterObject = Some true
            /\ v = VUndefined)) ->
  exists st2,
    valid (read_all fs (fresh n)) = (Normal (Some true), st2)
    /\ error_of (read_all fs (fresh n)) = (Normal None, st2)
    /\ validations st2 = 0
    /\ heap st2 = parameterObject.
Proof.
  intros Hvalue Herr Hcase.
  destruct (verdict_of_run n fs v st1 Hvalue Herr)
    as (st2 & Hrun & Hheap & Hcalls & _).
  rewrite (validation_skipped v Hcase) in Hrun, Hheap, Hcalls.
  cbn [fst snd trace heap nothing length] in Hrun, Hheap, Hcalls.
  destruct Hrun as [Hd He].
  exists st2. repeat split; assumption.
Qed.

(** C8: when [valid] is false and no coercion error was
    captured, the error exposed through [error] carries
    [failedValidation === true] and [schemaPath] equal to the
    descriptor's [ptr]; for a missing required parameter its code is
    ['MISSING_REQUIRED_PARAMETER'], and when the validator was called and
    returned a result, that result's error list is not empty and the
    error has code ['SCHEMA_VALIDATION_FAILED'] and that list as
    [errors].  A captured coercion error is exposed as the coercion
    function threw it. *)
Theorem C8_errors_of_validation (n : nat) (fs : list Facet) (v : JsValue)
    (st1 st2 : State) :
  value (fresh n) = (Normal v, st1) ->
  valid (read_all fs (fresh n)) = (Normal (Some false), st2) ->
  (error st1 = None ->
   exists e,
     error_of (read_all fs (fresh n)) = (Normal (Some e), st2)
     /\ e_failedValidation e = Some true
     /\ e_schemaPath e = Some (ParameterObject.ptr parameterObject)
     /\ (ParameterObject.required parameterObject = Some true ->
         v = VUndefined ->
         e_code e = Some "MISSING_REQUIRED_PARAMETER")
     /\ (forall res,
            validations st2 = 1 ->
            validateAgainstSchema escaped_document v
              (constructSchemaPathFromPtr
                 (ParameterObject.ptr parameterObject)
                 (ParameterObject.definition_schema parameterObject))
              validateOptions = Normal res ->
            errors res <> []
            /\ e_code e = Some "SCHEMA_VALIDATION_FAILED"
            /\ e_errors e = Some (errors res)))
  /\ (forall e0, error st1 = Some e0 ->
                 error_of (read_all fs (fresh n)) = (Normal (Some e0), st2)).
Proof.
  intros Hvalue Hvalid. split.
  - intros Herr.
    destruct (verdict_of_run n fs v st1 Hvalue Herr)
      as (st2' & Hrun & Hheap & Hcalls & _).
    destruct (fst (validation_run v)) as [[]|err] eqn:Efst;
      destruct Hrun as [Hd He]; rewrite Hd in Hvalid;
      [discriminate|].
    injection Hvalid as <-.
    exists (stamped err).
    split; [exact He|]. split; [reflexivity|]. split; [reflexivity|].
    split.
    + intros Hreq ->. rewrite (validation_missing Hreq) in Efst.
      cbn [fst] in Efst. injection Efst as <-. reflexivity.
    + intros res Hone Hres.
      destruct (proj2 (validation_frame v false None None VUndefined 0 []))
        as [[_ Htr]|[_ Htr]]; [rewrite Htr in Hcalls; cbn in Hcalls; lia|].
      destruct (validation_called v Htr) as [_ Hcalled].
      rewrite Hres in Hcalled.
      destruct Hcalled as [[_ Hc]|[Hne Hc]]; [congruence|].
      rewrite Efst in Hc. injection Hc as ->.
      split; [exact Hne | split; reflexivity].
  - intros e0 Herr.
    destruct (verdict_of_pending n fs v st1 e0 Hvalue Herr)
      as (st2' & Hd & He & _).
    rewrite Hd in Hvalid. injection Hvalid as <-. exact He.
Qed.

(** C10: for a string schema (whatever its format) on a descriptor that
    is not a file parameter, when the coerced value is [null] and no
    coercion error was captured, reading [valid] (after any reads)
    returns false instead of throwing: the [TypeError] of probing
    [value.readUInt8] is caught; the validator is not called; the error
    exposed is a [TypeError] that carries [failedValidation === true]
    and the descriptor's [ptr] as [schemaPath], and has no [code] at
    all, so neither of the two codes.  Without either hypothesis the
    conclusion fails: a file parameter skips the probe and is valid, and
    a pending coercion error is exposed as it was thrown. *)
Theorem C10_null_string_value (n : nat) (fs : list Facet) (st1 : State) :
  Schema.type the_schema = Some "string" ->
  ParameterObject.type parameterObject <> Some "file" ->
  value (fresh n) = (Normal VNull, st1) ->
  error st1 = None ->
  exists st2 e,
    valid (read_all fs (fresh n)) = (Normal (Some false), st2)
    /\ error_of (read_all fs (fresh n)) = (Normal (Some e), st2)
    /\ e_name e = "TypeError"
    /\ e_failedValidation e = Some true
    /\ e_schemaPath e = Some (ParameterObject.ptr parameterObject)
    /\ e_code e = None
    /\ e_code e <> Some "MISSING_REQUIRED_PARAMETER"
    /\ e_code e <> Some "SCHEMA_VALIDATION_FAILED"
    /\ validations st2 = 0.
Proof.
  intros Hstring Hfile Hvalue Herr.
  destruct (verdict_of_run n fs VNull st1 Hvalue Herr)
    as (st2 & Hrun & _ & Hcalls & _).
  rewrite (validation_null Hstring Hfile) in Hrun, Hcalls.
  cbn [fst snd trace nothing length] in Hrun, Hcalls.
  destruct Hrun as [Hd He].
  exists st2, (stamped (TypeError_read "readUInt8" "null")).
  repeat split; try assumption; discriminate.
Qed.

(** *** Coercion and the default values *)

Lemma is_str_iff (o : option string) (lit : string) :
  is_str o lit = true <-> o = Some lit.
Proof.
  split; [|apply is_str_true].
  destruct o as [s|]; cbn; [|discriminate].
  intros H. apply String.eqb_eq in H. now subst.
Qed.

Lemma every_undefined_Exists (l : list Schema.t) :
  every_undefined (map Schema.default l) = false
  <-> Exists (fun s => Schema.default s <> VUndefined) l.
Proof.
  unfold every_undefined. induction l as [|s l IH]; cbn [map forallb].
  - split; [discriminate | intros H; inversion H].
  - rewrite andb_false_iff, Exists_cons, IH. split; intros [H|H]; auto.
    + left. intros E. rewrite E in H. discriminate.
    + left. destruct (Schema.default s); cbn; congruence.
Qed.

(** [value] on a new instance whose schema is not a file: coercion,
    then the defaults, then [processed = true]. *)
Lemma value_unfold (n : nat) (stc : State) :
  is_str (Schema.type the_schema) "file" = false ->
  coercion (fresh n) = (Normal tt, stc) ->
  value (fresh n)
  = match defaults stc with
    | (Normal _, s) => (Normal (processedValue s), with_processed true s)
    | (Throw e, s) => (Throw e, s)
    end.
Proof.
  intros Hfile Hco. unfold get_value, construct in *. run_monad.
  rewrite Hfile, Hco. run_monad.
  destruct (defaults stc) as [[[]|e] s]; reflexivity.
Qed.

(** A defined coerced value is the value: the defaults do not apply. *)
Lemma value_of_defined (n : nat) (stc : State) :
  is_str (Schema.type the_schema) "file" = false ->
  coercion (fresh n) = (Normal tt, stc) ->
  isUndefined (processedValue stc) = false ->
  value (fresh n) = (Normal (processedValue stc), with_processed true stc).
Proof.
  intros Hfile Hco Hdef. rewrite (value_unfold n stc Hfile Hco).
  unfold apply_defaults. run_monad. rewrite Hdef. reflexivity.
Qed.

(** C7: on a new instance whose schema is not a file, when coercion
    ends with an [undefined] value and no captured error, [value] is:
    for an array schema whose [items] is a list, the array of the items'
    defaults in order if one of them is defined, and otherwise the
    schema's own [default]; for an array schema whose [items] is one
    schema with a defined [default], the one-element array of that
    default, and otherwise the schema's own [default]; in every other
    case the schema's own [default] ([undefined] when there is none). *)
Theorem C7_default_fallback (n : nat) (stc : State) :
  Schema.type the_schema <> Some "file" ->
  coercion (fresh n) = (Normal tt, stc) ->
  processedValue stc = VUndefined ->
  error stc = None ->
  exists v st1,
    value (fresh n) = (Normal v, st1)
    /\ (forall items,
           Schema.type the_schema = Some "array" ->
           Schema.items the_schema = Some (ItemsTuple items) ->
           (Exists (fun s => Schema.default s <> VUndefined) items ->
            v = VArray n (map Schema.default items))
           /\ (Forall (fun s => Schema.default s = VUndefined) items ->
               v = Schema.default the_schema))
    /\ (forall item,
           Schema.type the_schema = Some "array" ->
           Schema.items the_schema = Some (ItemsSingle item) ->
           (Schema.default item <> VUndefined ->
            v = VArray n [Schema.default item])
           /\ (Schema.default item = VUndefined ->
               v = Schema.default the_schema))
    /\ (Schema.type the_schema <> Some "array"
        \/ Schema.items the_schema = None ->
        v = Schema.default the_schema).
Proof.
  intros Hfile Hco Hpv Herr.
  apply is_str_false in Hfile.
  rewrite (value_unfold n stc Hfile Hco).
  destruct coercion_summary as (pv & er & evs & Hrun & _).
  unfold construct in Hco. rewrite (Hrun false None n []) in Hco.
  injection Hco as <-. cbn [processedValue error] in Hpv, Herr.
  subst pv er. unfold apply_defaults. run_monad.
  assert (forall d, isUndefined d = true ->
                    VUndefined = d) as Hundef
      by (intros d Hd; apply isUndefined_true in Hd; congruence).
  destruct (is_str (Schema.type the_schema) "array") eqn:Earr.
  - apply is_str_iff in Earr.
    destruct (Schema.items the_schema) as [[item|items]|] eqn:Eitems;
      run_monad.
    + destruct (isUndefined (Schema.default item)) eqn:Eitem; run_monad.
      * apply isUndefined_true in Eitem.
        destruct (isUndefined (Schema.default the_schema)) eqn:Edef;
          run_monad; (do 2 eexists; split; [reflexivity|]);
          repeat split; intros; try congruence;
          try (destruct H; congruence);
          replace item0 with item in * by congruence;
          try congruence; auto.
      * do 2 eexists; split; [reflexivity|].
        repeat split; intros; try congruence;
          try (destruct H; congruence);
          replace item0 with item in * by congruence;
          [reflexivity | rewrite H1 in Eitem; discriminate].
    + rewrite collect_defaults_map.
      destruct (every_undefined (map Schema.default items)) eqn:Eall;
        run_monad.
      * assert (Forall (fun s => Schema.default s = VUndefined) items)
          as Hall by (now apply every_undefined_Forall).
        destruct (isUndefined (Schema.default the_schema)) eqn:Edef;
          run_monad; (do 2 eexists; split; [reflexivity|]);
          repeat split; intros; try congruence;
          try (destruct H; congruence);
          replace items0 with items in * by congruence;
          auto;
          exfalso;
          match goal with
          | H : Exists _ _ |- _ =>
              apply every_undefined_Exists in H; congruence
          end.
      * assert (Exists (fun s => Schema.default s <> VUndefined) items)
          as Hex by (now apply every_undefined_Exists).
        do 2 eexists; split; [reflexivity|].
        repeat split; intros; try congruence;
          try (destruct H; congruence);
          replace items0 with items in * by congruence;
          [reflexivity|].
        exfalso.
        match goal with
        | H : Forall _ _ |- _ =>
            apply every_undefined_Forall in H; congruence
        end.
    + destruct (isUndefined (Schema.default the_schema)) eqn:Edef;
        run_monad; (do 2 eexists; split; [reflexivity|]);
        repeat split; intros; try congruence; auto.
  - assert (Schema.type the_schema <> Some "array") as Hnot
        by (intros E; apply is_str_true in E; congruence).
    run_monad.
    destruct (isUndefined (Schema.default the_schema)) eqn:Edef;
      run_monad; (do 2 eexists; split; [reflexivity|]);
      repeat split; intros; try congruence; auto.
Qed.

(** *** The [oneOf] loop *)

Lemma last_cons {A} (l : list A) (x d : A) : last (x :: l) d = last l x.
Proof.
  revert x d; induction l as [|y l IH]; intros x d; [reflexivity|].
  change (last (x :: y :: l) d) with (last (y :: l) d).
  now rewrite !IH.
Qed.

(** Alternatives of type ['null'] are passed over. *)
Lemma loop_attempted (alternatives : list Schema.t) (st : State) :
  loop alternatives st = loop (attempted alternatives) st.
Proof.
  revert st. unfold attempted.
  induction alternatives as [|s later IH]; intros st; [reflexivity|].
  cbn [oneOf_loop filter].
  destruct (is_str (Schema.type s) "null") eqn:Enull; cbn [negb].
  - apply IH.
  - cbn [oneOf_loop]. rewrite Enull. unfold call_convertValue. run_monad.
    destruct (convertValue s _ raw) as [v|err]; [|reflexivity].
    destruct (negb (strict_eq v VUndefined) && negb (strict_eq v raw));
      [reflexivity | apply IH].
Qed.

Lemma attempted_not_null (alternatives : list Schema.t) :
  Forall (fun s => is_str (Schema.type s) "null" = false)
         (attempted alternatives).
Proof.
  apply Forall_forall. intros s Hs. apply filter_In in Hs as [_ Hs].
  now apply negb_true_iff.
Qed.

(** A run of rejected alternatives: each is converted in turn and the
    loop goes on, holding the result of the last one. *)
Lemma loop_rejected (pre rest : list Schema.t) :
  Forall (fun s => is_str (Schema.type s) "null" = false) pre ->
  Forall rejected pre ->
  forall p e iv pv0 n t,
    loop (pre ++ rest) (mkState p e iv pv0 parameterObject n t)
    = loop rest (mkState p e iv (last (map result_of pre) pv0)
                         parameterObject n (t ++ map conversion_of pre)).
Proof.
  induction pre as [|s pre IH]; intros Hnull Hrej p e iv pv0 n t.
  - cbn [app map last]. now rewrite app_nil_r.
  - inversion Hnull as [|? ? Hs Hnull']; subst.
    inversion Hrej as [|? ? (v & Hv & Hacc) Hrej']; subst.
    cbn [app oneOf_loop]. rewrite Hs. unfold call_convertValue. run_monad.
    rewrite Hv. unfold accepted in Hacc. rewrite Hacc.
    rewrite (IH Hnull' Hrej'). cbn [map]. rewrite last_cons.
    assert (result_of s = v) as -> by (unfold result_of; now rewrite Hv).
    rewrite <- app_assoc. reflexivity.
Qed.



(** *** What the getters leave of the descriptor *)

Lemma obj_get_in {V} (k : string) (o : Obj.t V) :
  In k (Obj.keys o) -> exists v, Obj.get k o = Some v.
Proof.
  unfold Obj.keys. induction o as [|[k' v'] o IH]; cbn; [tauto|].
  intros [<- | H].
  - rewrite String.eqb_refl. eauto.
  - destruct (String.eqb k k'); eauto.
Qed.

Lemma obj_set_same {V} (k : string) (v : V) (o : Obj.t V) :
  Obj.get k o = Some v -> Obj.set k v o = o.
Proof.
  induction o as [|[k' v'] o IH]; cbn; [discriminate|].
  destruct (String.eqb k k').
  - intros H. injection H as ->. reflexivity.
  - intros H. now rewrite IH.
Qed.

Lemma obj_set_keys {V} (k k' : string) (v : V) (o : Obj.t V) :
  In k (Obj.keys o) -> In k (Obj.keys (Obj.set k' v o)).
Proof.
  unfold Obj.keys. induction o as [|[k0 v0] o IH]; [intros []|].
  cbn [Obj.set]. destruct (String.eqb k' k0); cbn [map fst In] in *.
  - tauto.
  - intros [H|H]; [now left | right; now apply IH].
Qed.

Lemma obj_set_key {V} (k : string) (v : V) (o : Obj.t V) :
  In k (Obj.keys (Obj.set k v o)).
Proof.
  unfold Obj.keys. induction o as [|[k0 v0] o IH]; [now left|].
  cbn [Obj.set]. destruct (String.eqb k k0) eqn:E; cbn [map fst In].
  - apply String.eqb_eq in E. now left.
  - right. exact IH.
Qed.

Lemma escape_keys_fold (paths : Obj.t JsValue) :
  escape_keys escapeSingleQuotes paths
  = fold_left escape_step (Obj.keys paths) paths.
Proof. reflexivity. Qed.

(** Escaping never removes a key. *)
Lemma escape_keys_retains (ks : list string) (o : Obj.t JsValue)
    (k : string) :
  In k (Obj.keys o) -> In k (Obj.keys (fold_left escape_step ks o)).
Proof.
  revert o; induction ks as [|k0 ks IH]; intros o H; cbn [fold_left];
    [exact H|].
  apply IH. unfold escape_step. now apply obj_set_keys.
Qed.

(** Every visited key has its escaped form among the keys afterwards. *)
Lemma escape_keys_adds (ks : list string) (o : Obj.t JsValue)
    (k : string) :
  In k ks ->
  In (escapeSingleQuotes k) (Obj.keys (fold_left escape_step ks o)).
Proof.
  revert o; induction ks as [|k0 ks IH]; intros o H; cbn [fold_left];
    [destruct H|].
  destruct H as [-> | H]; [|now apply IH].
  apply escape_keys_retains. unfold escape_step. apply obj_set_key.
Qed.

(** Keys the escaper leaves alone leave the object alone. *)
Lemma escape_keys_fixed (ks : list string) (o : Obj.t JsValue) :
  (forall k, In k ks -> In k (Obj.keys o)) ->
  (forall k, In k ks -> escapeSingleQuotes k = k) ->
  fold_left escape_step ks o = o.
Proof.
  induction ks as [|k0 ks IH]; intros Hin Hfix; cbn [fold_left];
    [reflexivity|].
  assert (escape_step o k0 = o) as ->.
  { unfold escape_step. rewrite (Hfix k0 (or_introl eq_refl)).
    destruct (obj_get_in k0 o (Hin k0 (or_introl eq_refl))) as (v & Hv).
    rewrite Hv. now apply obj_set_same. }
  apply IH; intros k Hk; [apply Hin | apply Hfix]; now right.
Qed.

(** C9: after any sequence of reads the descriptor has the
    [schema], [required], [type], [collectionFormat], [ptr] and
    [definition.schema] it had, and the root document has everything but
    [paths] as it was.  [paths] is untouched as long as the validator has
    not been called; once it has, [paths] is what [escapePaths] makes of
    the original: no key is lost, and the escaped form of every key is a
    key.  When the escaper changes no key of [paths], the whole
    descriptor is unchanged. *)
Theorem C9_descriptor_frame (n : nat) (fs : list Facet) :
  let st := read_all fs (fresh n) in
  let p := heap st in
  let paths0 :=
    Document.paths (ParameterObject.api_definition parameterObject) in
  let paths1 := Document.paths (ParameterObject.api_definition p) in
  (ParameterObject.schema p = ParameterObject.schema parameterObject
   /\ ParameterObject.required p = ParameterObject.required parameterObject
   /\ ParameterObject.type p = ParameterObject.type parameterObject
   /\ ParameterObject.collectionFormat p
      = ParameterObject.collectionFormat parameterObject
   /\ ParameterObject.ptr p = ParameterObject.ptr parameterObject
   /\ ParameterObject.definition_schema p
      = ParameterObject.definition_schema parameterObject
   /\ Document.rest (ParameterObject.api_definition p)
      = Document.rest (ParameterObject.api_definition parameterObject))
  /\ (validations st = 0 -> p = parameterObject)
  /\ (validations st <> 0 ->
      paths1 = escape_keys escapeSingleQuotes paths0)
  /\ (forall k, In k (Obj.keys paths0) ->
                In k (Obj.keys paths1)
                /\ (validations st <> 0 ->
                    In (escapeSingleQuotes k) (Obj.keys paths1)))
  /\ ((forall k, In k (Obj.keys paths0) -> escapeSingleQuotes k = k) ->
      p = parameterObject).
Proof.
  destruct (instance_states n)
    as (pv & er & evs & n' & b & er2 & h2 & evs2
        & R0 & R1 & R2 & C0 & C1 & C2 & Hv & G & Hall & Hlen & Hverdict
        & Hside).
  cbn zeta in *.
  assert (evs2 = []
          \/ exists d v k o, evs2 = [ValidateAgainstSchema d v k o])
    as Hevs2.
  { destruct Hside as [[_ ->]|[_ ->]]; [now left|right].
    unfold validator_call. eauto. }
  destruct (count_calls evs evs2 Hall Hevs2) as (K1 & K2 & K3 & K4).
  assert ((heap (read_all fs (fresh n)) = parameterObject
           /\ validations (read_all fs (fresh n)) = 0)
          \/ (heap (read_all fs (fresh n)) = escaped
              /\ validations (read_all fs (fresh n)) = 1)) as Hcases.
  { destruct (C0 fs) as [-> | [-> | ->]]; unfold validations;
      cbn [heap trace construct]; rewrite ?K2, ?K4; auto.
    destruct Hside as [[-> ->] | [-> ->]]; auto. }
  destruct Hcases as [[-> ->] | [-> ->]].
  - repeat split; auto; lia.
  - unfold escaped, escaped_document.
    cbn [ParameterObject.schema ParameterObject.required
         ParameterObject.type ParameterObject.collectionFormat
         ParameterObject.ptr ParameterObject.definition_schema
         ParameterObject.api_definition ParameterObject.with_api_definition
         Document.rest Document.paths Document.with_paths].
    repeat split; try lia.
    + rewrite escape_keys_fold. now apply escape_keys_retains.
    + intros _. rewrite escape_keys_fold. now apply escape_keys_adds.
    + intros Hfix. rewrite escape_keys_fold, escape_keys_fixed; auto.
      destruct parameterObject as [? ? ? ? ? ? []]. reflexivity.
Qed.

(** *** A coercion that throws *)

(** X6: without [oneOf]: the value is [undefined], the defaults are not
    applied, [valid] is false without the validator being called, and the
    thrown error is the error. *)
Lemma throw_without_oneOf (n : nat) (fs : list Facet) (e : JsError) :
  Schema.oneOf the_schema = None ->
  Schema.type the_schema <> Some "file" ->
  convertValue the_schema cf raw = Throw e ->
  exists st1 st2,
    value (fresh n) = (Normal VUndefined, st1)
    /\ error st1 = Some e
    /\ valid (read_all fs (fresh n)) = (Normal (Some false), st2)
    /\ error_of (read_all fs (fresh n)) = (Normal (Some e), st2)
    /\ validations st2 = 0.
Proof.
  intros HoneOf Hfile Hthrow. apply is_str_false in Hfile.
  assert (coercion (fresh n)
          = (Normal tt,
             mkState false (Some e) None VUndefined parameterObject n
                     [conversion_of the_schema])) as Hco.
  { unfold coerce, construct, try_catch. rewrite HoneOf.
    unfold call_convertValue. run_monad. now rewrite Hthrow. }
  assert (value (fresh n)
          = (Normal VUndefined,
             mkState true (Some e) None VUndefined parameterObject n
                     [conversion_of the_schema])) as Hvalue.
  { rewrite (value_unfold n _ Hfile Hco). reflexivity. }
  destruct (verdict_of_pending n fs VUndefined _ e Hvalue eq_refl)
    as (st2 & Hd & He & _ & Hcalls).
  eexists. exists st2.
  split; [exact Hvalue|]. split; [reflexivity|].
  split; [exact Hd|]. split; [exact He | exact Hcalls].
Qed.

(** Inside the [oneOf] loop: the value is whatever the last alternative
    that returned left in [processedValue]. *)
Lemma throw_in_oneOf (n : nat) (alternatives pre post : list Schema.t)
    (a : Schema.t) (e : JsError) :
  Schema.oneOf the_schema = Some alternatives ->
  Schema.type the_schema <> Some "file" ->
  attempted alternatives = pre ++ a :: post ->
  Forall rejected pre ->
  convertValue a cf raw = Throw e ->
  exists st1,
    value (fresh n) = (Normal (last (map result_of pre) VUndefined), st1)
    /\ error st1 = Some e.
Proof.
  intros HoneOf Hfile Hsplit Hrej Hthrow. apply is_str_false in Hfile.
  pose proof (attempted_not_null alternatives) as Hnull.
  rewrite Hsplit in Hnull. apply Forall_app in Hnull as [Hpre Hrest].
  inversion Hrest as [|? ? Ha _]; subst.
  assert (coercion (fresh n)
          = (Normal tt,
             mkState false (Some e) None
                     (last (map result_of pre) VUndefined)
                     parameterObject n
                     (map conversion_of (pre ++ [a])))) as Hco.
  { unfold coerce, construct, try_catch. rewrite HoneOf.
    rewrite loop_attempted, Hsplit, (loop_rejected pre _ Hpre Hrej).
    cbn [oneOf_loop]. rewrite Ha. unfold call_convertValue. run_monad.
    rewrite Hthrow. rewrite map_app. reflexivity. }
  rewrite (value_unfold n _ Hfile Hco).
  unfold apply_defaults. run_monad. cbn [is_none]. rewrite andb_false_r.
  eexists. split; reflexivity.
Qed.

(** *** [escapePaths] on a document that is shared *)

Lemma obj_get_key {V} (k : string) (o : Obj.t V) :
  In k (Obj.keys o) -> exists v, Obj.get k o = Some v.
Proof.
  unfold Obj.keys. induction o as [|[k' v'] o IH]; [intros []|].
  cbn [map fst In Obj.get]. intros [<- | H].
  - rewrite String.eqb_refl. now exists v'.
  - destruct (String.eqb k k'); [now exists v' | now apply IH].
Qed.

Lemma obj_get_set {V} (k k' : string) (v : V) (o : Obj.t V) :
  Obj.get k (Obj.set k' v o)
  = if String.eqb k k' then Some v else Obj.get k o.
Proof.
  induction o as [|[k0 v0] o IH]; cbn [Obj.set Obj.get]; [reflexivity|].
  destruct (String.eqb k' k0) eqn:E; cbn [Obj.get].
  - apply String.eqb_eq in E. subst k0.
    destruct (String.eqb k k'); reflexivity.
  - rewrite IH. destruct (String.eqb k k0) eqn:E0; [|reflexivity].
    apply String.eqb_eq in E0. subst k0.
    now rewrite String.eqb_sym, E.
Qed.

Lemma obj_keys_set {V} (e k : string) (v : V) (o : Obj.t V) :
  In e (Obj.keys (Obj.set k v o)) -> In e (Obj.keys o) \/ e = k.
Proof.
  unfold Obj.keys. induction o as [|[k0 v0] o IH]; cbn [Obj.set].
  - cbn. intros [<-|[]]. now right.
  - destruct (String.eqb k k0); cbn [map fst In].
    + intros H. now left.
    + intros [H|H]; [left; now left|].
      destruct (IH H) as [H'|H']; [left; now right | now right].
Qed.

(** While [_.each] walks the keys of [o], under an escaper that is
    idempotent and one-to-one on those keys: no entry of [o] is
    overwritten, every visited key has its value under its escaped form,
    and every key is a key of [o] or the escaped form of a visited one. *)
Lemma escape_fold_invariant (o : Obj.t JsValue) :
  (forall k, In k (Obj.keys o) ->
             escapeSingleQuotes (escapeSingleQuotes k)
             = escapeSingleQuotes k) ->
  (forall k k', In k (Obj.keys o) -> In k' (Obj.keys o) ->
                escapeSingleQuotes k = escapeSingleQuotes k' -> k = k') ->
  forall ks visited o',
    (forall k, In k ks -> In k (Obj.keys o)) ->
    (forall k, In k visited -> In k (Obj.keys o)) ->
    (forall k, In k (Obj.keys o) -> Obj.get k o' = Obj.get k o) ->
    (forall k, In k visited ->
               Obj.get (escapeSingleQuotes k) o' = Obj.get k o) ->
    (forall e, In e (Obj.keys o') ->
               In e (Obj.keys o)
               \/ exists k, In k visited /\ e = escapeSingleQuotes k) ->
    let o'' := fold_left escape_step ks o' in
    (forall k, In k (Obj.keys o) -> Obj.get k o'' = Obj.get k o)
    /\ (forall k, In k visited \/ In k ks ->
                  Obj.get (escapeSingleQuotes k) o'' = Obj.get k o)
    /\ (forall e, In e (Obj.keys o'') ->
                  In e (Obj.keys o)
                  \/ exists k, (In k visited \/ In k ks)
                               /\ e = escapeSingleQuotes k).
Proof.
  intros Hidem Hinj.
  induction ks as [|k0 ks IH];
    intros visited o' Hks Hvis Hkeep Hesc Hkeys; cbn [fold_left].
  - cbn zeta. split; [exact Hkeep|]. split.
    + intros k [H|[]]. now apply Hesc.
    + intros e He. destruct (Hkeys e He) as [H|(k & Hk & ->)]; eauto.
  - assert (In k0 (Obj.keys o)) as Hk0 by (apply Hks; now left).
    destruct (obj_get_key k0 o Hk0) as (v0 & Hv0).
    assert (escape_step o' k0 = Obj.set (escapeSingleQuotes k0) v0 o')
      as Hstep by (unfold escape_step; now rewrite (Hkeep k0 Hk0), Hv0).
    assert (forall k, In k (Obj.keys o) ->
                      escapeSingleQuotes k0 = k -> k = k0) as Hfix.
    { intros k Hk E. apply Hinj; auto. rewrite <- E. now apply Hidem. }
    specialize (IH (visited ++ [k0]) (escape_step o' k0)).
    cbn zeta in IH. destruct IH as (I1 & I2 & I3).
    + intros k Hk. apply Hks. now right.
    + intros k Hk. apply in_app_or in Hk as [Hk|[<-|[]]]; auto.
    + intros k Hk. rewrite Hstep, obj_get_set.
      destruct (String.eqb k (escapeSingleQuotes k0)) eqn:E;
        [|now apply Hkeep].
      apply String.eqb_eq in E.
      rewrite (Hfix k Hk (eq_sym E)). now rewrite Hv0.
    + intros k Hk. rewrite Hstep, obj_get_set.
      destruct (String.eqb (escapeSingleQuotes k) (escapeSingleQuotes k0))
        eqn:E.
      * apply String.eqb_eq in E.
        assert (In k (Obj.keys o)) as Hk'
            by (apply in_app_or in Hk as [Hk|[<-|[]]]; auto).
        rewrite (Hinj k k0 Hk' Hk0 E). now rewrite Hv0.
      * apply in_app_or in Hk as [Hk|[<-|[]]]; [now apply Hesc|].
        now rewrite String.eqb_refl in E.
    + intros e He. rewrite Hstep in He.
      apply obj_keys_set in He as [He| ->].
      * destruct (Hkeys e He) as [H|(k & Hk & ->)]; [now left|].
        right. exists k. split; [apply in_or_app; now left | reflexivity].
      * right. exists k0. split; [apply in_or_app; right; now left|].
        reflexivity.
    + split; [exact I1|]. split.
      * intros k Hk. apply I2.
        destruct Hk as [Hk|[<-|Hk]].
        -- left. apply in_or_app. now left.
        -- left. apply in_or_app. right. now left.
        -- now right.
      * intros e He. destruct (I3 e He) as [H|(k & Hk & ->)]; [now left|].
        right. exists k. split; [|reflexivity].
        destruct Hk as [Hk|Hk]; [|right; now right].
        apply in_app_or in Hk as [Hk|[<-|[]]]; [now left|right; now left].
Qed.

(** X8: [escapePaths] keeps every entry and files every value a second
    time under its escaped key, when the escaper is idempotent and
    one-to-one on the keys. *)
Theorem escape_keys_values (o : Obj.t JsValue) (k : string) :
  (forall k, In k (Obj.keys o) ->
             escapeSingleQuotes (escapeSingleQuotes k)
             = escapeSingleQuotes k) ->
  (forall k k', In k (Obj.keys o) -> In k' (Obj.keys o) ->
                escapeSingleQuotes k = escapeSingleQuotes k' -> k = k') ->
  In k (Obj.keys o) ->
  Obj.get k (escape_keys escapeSingleQuotes o) = Obj.get k o
  /\ Obj.get (escapeSingleQuotes k) (escape_keys escapeSingleQuotes o)
     = Obj.get k o
  /\ Obj.get k o <> None.
Proof.
  intros Hidem Hinj Hk.
  destruct (escape_fold_invariant o Hidem Hinj (Obj.keys o) [] o
              (fun k H => H)
              (fun k (H : In k []) => match H with end)
              (fun k _ => eq_refl)
              (fun k (H : In k []) => match H with end)
              (fun e H => or_introl H))
    as (I1 & I2 & _).
  rewrite escape_keys_fold. split; [now apply I1|].
  split; [apply I2; now right|].
  destruct (obj_get_key k o Hk) as (v & ->). discriminate.
Qed.

(** Every key left by [escapePaths] already has its own value under its
    escaped form, so a second pass finds nothing to do. *)
Lemma escape_keys_closed (o : Obj.t JsValue) :
  (forall k, In k (Obj.keys o) ->
             escapeSingleQuotes (escapeSingleQuotes k)
             = escapeSingleQuotes k) ->
  (forall k k', In k (Obj.keys o) -> In k' (Obj.keys o) ->
                escapeSingleQuotes k = escapeSingleQuotes k' -> k = k') ->
  forall e, In e (Obj.keys (escape_keys escapeSingleQuotes o)) ->
    exists v,
      Obj.get e (escape_keys escapeSingleQuotes o) = Some v
      /\ Obj.get (escapeSingleQuotes e) (escape_keys escapeSingleQuotes o)
         = Some v.
Proof.
  intros Hidem Hinj e He.
  destruct (escape_fold_invariant o Hidem Hinj (Obj.keys o) [] o
              (fun k H => H)
              (fun k (H : In k []) => match H with end)
              (fun k _ => eq_refl)
              (fun k (H : In k []) => match H with end)
              (fun e H => or_introl H))
    as (I1 & I2 & I3).
  rewrite escape_keys_fold in *. cbn zeta in *.
  destruct (I3 e He) as [H|(k & [[]|Hk] & ->)].
  - destruct (obj_get_key e o H) as (v & Hv). exists v.
    rewrite I1, I2 by auto. auto.
  - destruct (obj_get_key k o Hk) as (v & Hv). exists v.
    rewrite (Hidem k Hk), I2 by auto. auto.
Qed.

Lemma escape_fold_closed (ks : list string) (o : Obj.t JsValue) :
  (forall e, In e ks ->
     exists v, Obj.get e o = Some v
               /\ Obj.get (escapeSingleQuotes e) o = Some v) ->
  fold_left escape_step ks o = o.
Proof.
  induction ks as [|k ks IH]; intros H; cbn [fold_left]; [reflexivity|].
  assert (escape_step o k = o) as ->.
  { destruct (H k (or_introl eq_refl)) as (v & Hv & Hv').
    unfold escape_step. rewrite Hv. now apply obj_set_same. }
  apply IH. intros e He. apply H. now right.
Qed.

(** Running [escapePaths] on what [escapePaths] produced changes
    nothing. *)
Lemma escape_keys_twice (o : Obj.t JsValue) :
  (forall k, In k (Obj.keys o) ->
             escapeSingleQuotes (escapeSingleQuotes k)
             = escapeSingleQuotes k) ->
  (forall k k', In k (Obj.keys o) -> In k' (Obj.keys o) ->
                escapeSingleQuotes k = escapeSingleQuotes k' -> k = k') ->
  escape_keys escapeSingleQuotes (escape_keys escapeSingleQuotes o)
  = escape_keys escapeSingleQuotes o.
Proof.
  intros Hidem Hinj.
  rewrite (escape_keys_fold (escape_keys escapeSingleQuotes o)).
  apply escape_fold_closed. now apply escape_keys_closed.
Qed.


(** X7: a descriptor whose document already went through [escapePaths]
    (as happens once an earlier parameter value was validated against the
    same document) is left exactly as it is by any reads, when the escaper
    is idempotent and one-to-one on the keys the document had before. *)
Theorem shared_document_settled (q : Obj.t JsValue) (n : nat)
    (fs : list Facet) :
  (forall k, In k (Obj.keys q) ->
             escapeSingleQuotes (escapeSingleQuotes k)
             = escapeSingleQuotes k) ->
  (forall k k', In k (Obj.keys q) -> In k' (Obj.keys q) ->
                escapeSingleQuotes k = escapeSingleQuotes k' -> k = k') ->
  Document.paths (ParameterObject.api_definition parameterObject)
  = escape_keys escapeSingleQuotes q ->
  heap (read_all fs (fresh n)) = parameterObject.
Proof.
  intros Hidem Hinj Hpaths.
  assert (escaped = parameterObject) as Hsame.
  { unfold escaped, escaped_document.
    rewrite Hpaths, (escape_keys_twice q Hidem Hinj), <- Hpaths.
    destruct parameterObject as [? ? ? ? ? ? []]. reflexivity. }
  destruct (instance_states n)
    as (pv & er & evs & n' & b & er2 & h2 & evs2
        & R0 & R1 & R2 & C0 & C1 & C2 & Hv & G & Hall & Hlen & Hverdict
        & Hside).
  cbn zeta in *.
  destruct (C0 fs) as [-> | [-> | ->]]; cbn [heap construct];
    try reflexivity.
  destruct Hside as [[-> _] | [-> _]]; [reflexivity | exact Hsame].
Qed.

(** *** The order of reads *)

(** X2: reads of [value] alone, however many, never evaluate [valid],
    never call the validator and leave the descriptor as it is; after the
    first of them the state no longer changes. *)
Theorem value_reads_frame (n : nat) (fs : list Facet) :
  Forall (fun f => f = Value) fs ->
  let st := read_all fs (fresh n) in
  isValid st = None
  /\ validations st = 0
  /\ heap st = parameterObject
  /\ (fs <> [] -> st = snd (value (fresh n)) /\ processed st = true).
Proof.
  intros Hfs.
  destruct (instance_states n)
    as (pv & er & evs & n' & b & er2 & h2 & evs2
        & R0 & R1 & R2 & C0 & C1 & C2 & Hv & G & Hall & Hlen & Hverdict
        & Hside).
  cbn zeta in *.
  set (s1 := mkState true er None pv parameterObject n' evs) in *.
  destruct (count_calls evs [] Hall (or_introl eq_refl)) as (_ & K2 & _).
  assert (forall gs, Forall (fun f => f = Value) gs -> read_all gs s1 = s1)
    as Hstay.
  { induction gs as [|g gs IH]; intros Hgs; [reflexivity|].
    inversion Hgs as [|? ? -> Hgs']; subst. cbn [reads].
    rewrite (R1 Value). cbn [snd]. now apply IH. }
  destruct fs as [|f fs].
  - cbn [reads]. repeat split; try reflexivity; congruence.
  - inversion Hfs as [|? ? -> Hfs']; subst. cbn [reads].
    rewrite (R0 Value). cbn [snd]. rewrite (Hstay fs Hfs'), Hv.
    repeat split. exact K2.
Qed.

(** X3: whatever the order and number of reads, as soon as one of them is
    of [valid] or [error] the instance is in the state a single read of
    [valid] on the new instance leaves. *)
Theorem reads_confluent (n : nat) (fs : list Facet) :
  Exists (fun f => f <> Value) fs ->
  read_all fs (fresh n) = snd (valid (fresh n)).
Proof.
  intros Hfs.
  destruct (instance_states n)
    as (pv & er & evs & n' & b & er2 & h2 & evs2
        & R0 & R1 & R2 & C0 & C1 & C2 & Hv & G & Hall & Hlen & Hverdict
        & Hside).
  cbn zeta in *.
  set (s1 := mkState true er None pv parameterObject n' evs) in *.
  set (s2 := mkState true er2 (Some b) pv h2 n' (evs ++ evs2)) in *.
  destruct (G []) as [Gd _]. cbn [reads] in Gd. rewrite Gd. cbn [snd].
  assert (forall gs, Exists (fun f => f <> Value) gs -> read_all gs s1 = s2)
    as Hs1.
  { induction gs as [|g gs IH]; intros Hgs; [inversion Hgs|].
    cbn [reads]. rewrite (R1 g).
    destruct g; cbn [snd]; try apply C2.
    apply IH. inversion Hgs as [? ? Hg|]; [congruence | assumption]. }
  destruct fs as [|f fs]; [inversion Hfs|].
  cbn [reads]. rewrite (R0 f).
  destruct f; cbn [snd]; try apply C2.
  apply Hs1. inversion Hfs as [? ? Hf|]; [congruence | assumption].
Qed.

(** X9: the validator is called at most once, and then on the coerced
    value (the one [value] returns), with the document as [escapePaths]
    leaves it, the schema path built from the descriptor's [ptr] and
    [definition.schema], and the options given to the constructor. *)
Theorem validator_called_on_value (n : nat) (fs : list Facet) :
  exists v,
    fst (value (fresh n)) = Normal v
    /\ (filter is_ValidateAgainstSchema (trace (read_all fs (fresh n))) = []
        \/ filter is_ValidateAgainstSchema (trace (read_all fs (fresh n)))
           = [ValidateAgainstSchema escaped_document v
                (constructSchemaPathFromPtr
                   (ParameterObject.ptr parameterObject)
                   (ParameterObject.definition_schema parameterObject))
                validateOptions]).
Proof.
  destruct (instance_states n)
    as (pv & er & evs & n' & b & er2 & h2 & evs2
        & R0 & R1 & R2 & C0 & C1 & C2 & Hv & G & Hall & Hlen & Hverdict
        & Hside).
  cbn zeta in *. exists pv. rewrite Hv. split; [reflexivity|].
  assert (filter is_ValidateAgainstSchema evs = []) as Hnone.
  { clear - Hall. induction Hall as [|e evs He _ IH]; [reflexivity|].
    cbn [filter]. destruct e; cbn in *; [exact IH | discriminate]. }
  destruct (C0 fs) as [-> | [-> | ->]]; cbn [trace construct];
    [left; reflexivity | left; exact Hnone |].
  rewrite filter_app, Hnone. cbn [app].
  destruct Hside as [[_ ->] | [_ ->]]; [left; reflexivity | right].
  reflexivity.
Qed.


(** *** More on coercion *)

(** X4: on a new instance whose schema is not a file, the defaults are
    left alone when coercion produced a value or captured an error:
    [value] is then what coercion left in [processedValue], and nothing
    else of the state changes but [processed]. *)
Theorem defaults_only_when_nothing (n : nat) (stc : State) :
  Schema.type the_schema <> Some "file" ->
  coercion (fresh n) = (Normal tt, stc) ->
  processedValue stc <> VUndefined \/ error stc <> None ->
  value (fresh n) = (Normal (processedValue stc), with_processed true stc).
Proof.
  intros Hfile Hco Hsome. apply is_str_false in Hfile.
  rewrite (value_unfold n stc Hfile Hco). unfold apply_defaults. run_monad.
  assert (isUndefined (processedValue stc) && is_none (error stc) = false)
    as ->; [|reflexivity].
  destruct Hsome as [H|H].
  - destruct (processedValue stc); cbn; congruence.
  - destruct (error stc); [|congruence]. apply andb_false_r.
Qed.

(** X13: when [oneOf] is declared but offers nothing to attempt (it is
    empty, or all its alternatives have type ['null']), then for every
    schema [value] returns, the coercion function is not called and no
    error is pending; for a schema that is neither a file nor an array,
    [value] is the schema's own [default]. *)
Theorem oneOf_nothing_attempted (n : nat) (alternatives : list Schema.t) :
  Schema.oneOf the_schema = Some alternatives ->
  attempted alternatives = [] ->
  exists v st1,
    value (fresh n) = (Normal v, st1)
    /\ error st1 = None
    /\ conversions st1 = 0
    /\ (Schema.type the_schema <> Some "file" ->
        Schema.type the_schema <> Some "array" ->
        v = Schema.default the_schema).
Proof.
  intros HoneOf Hnone.
  destruct (is_str (Schema.type the_schema) "file") eqn:Hfile.
  - exists raw. unfold get_value, construct. run_monad. rewrite Hfile.
    run_monad. eexists. split; [reflexivity|].
    split; [reflexivity|]. split; [reflexivity|].
    intros Hnot. apply is_str_false in Hnot. congruence.
  - assert (coercion (fresh n) = (Normal tt, fresh n)) as Hco.
    { unfold coerce, try_catch. now rewrite HoneOf, loop_attempted, Hnone. }
    rewrite (value_unfold n _ Hfile Hco).
    destruct (defaults_summary VUndefined None n) as (pv' & n' & Hdef).
    specialize (Hdef false None []). unfold construct. rewrite Hdef.
    exists pv'. eexists. split; [reflexivity|].
    split; [reflexivity|]. split; [reflexivity|].
    intros _ Harray. apply is_str_false in Harray.
    revert Hdef. unfold apply_defaults. run_monad.
    cbn [isUndefined is_none andb]. rewrite Harray. run_monad.
    cbn [isUndefined andb].
    destruct (isUndefined (Schema.default the_schema)) eqn:Edef; run_monad;
      intros Hdef; injection Hdef as Hpv _.
    + apply isUndefined_true in Edef. congruence.
    + congruence.
Qed.

Lemma conversions_of_map (l : list Schema.t) :
  length (filter is_ConvertValue (map conversion_of l)) = length l.
Proof. induction l as [|s l IH]; [reflexivity | cbn; now rewrite IH]. Qed.

(** X14: for a schema that is not file-typed, whose [oneOf] has at least
    one alternative of a type other than ['null'], when every attempted
    alternative returns the raw value itself (no conversion was needed)
    and the raw value is defined and [===] to itself (it is not [NaN]),
    the raw value is [value], with no error pending; each attempted
    alternative has been converted once. *)
Theorem oneOf_unchanged_raw (n : nat) (alternatives : list Schema.t) :
  Schema.oneOf the_schema = Some alternatives ->
  Schema.type the_schema <> Some "file" ->
  attempted alternatives <> [] ->
  raw <> VUndefined ->
  strict_eq raw raw = true ->
  (forall s, In s (attempted alternatives) ->
             convertValue s cf raw = Normal raw) ->
  exists st1,
    value (fresh n) = (Normal raw, st1)
    /\ error st1 = None
    /\ conversions st1 = length (attempted alternatives).
Proof.
  intros HoneOf Hfile Hsome Hraw Hself Hsame. apply is_str_false in Hfile.
  pose proof (attempted_not_null alternatives) as Hnull.
  assert (Forall rejected (attempted alternatives)) as Hrej.
  { apply Forall_forall. intros s Hs. exists raw. split; [now apply Hsame|].
    unfold accepted. rewrite Hself. apply andb_false_r. }
  assert (last (map result_of (attempted alternatives)) VUndefined = raw)
    as Hlast.
  { revert Hsome Hsame. generalize (attempted alternatives) as l.
    induction l as [|s l IH]; intros Hne Hall; [congruence|].
    cbn [map]. rewrite last_cons.
    assert (result_of s = raw) as ->
        by (unfold result_of; now rewrite (Hall s (or_introl eq_refl))).
    destruct l as [|s' l]; [reflexivity|].
    cbn [map]. rewrite last_cons. rewrite <- (last_cons _ _ VUndefined).
    apply (IH ltac:(discriminate)). intros x Hx. apply Hall. now right. }
  assert (coercion (fresh n)
          = (Normal tt,
             mkState false None None raw parameterObject n
                     (map conversion_of (attempted alternatives)))) as Hco.
  { unfold coerce, construct, try_catch. rewrite HoneOf, loop_attempted.
    rewrite <- (app_nil_r (attempted alternatives)) at 1.
    rewrite (loop_rejected _ [] Hnull Hrej), Hlast. reflexivity. }
  rewrite (value_of_defined n _ Hfile Hco).
  - eexists. repeat split. unfold conversions, with_processed.
    cbn [trace]. apply conversions_of_map.
  - cbn [processedValue]. destruct raw; cbn; congruence.
Qed.

(** X1: a file parameter (schema and descriptor of type ['file']) is
    passed through: [value] is the raw value, the coercion function and
    the validator are never called, no default is applied and the
    descriptor is left as it is; [valid] is false only when the parameter
    is required and the raw value is [undefined]. *)
Theorem file_parameter (n : nat) (fs : list Facet) :
  Schema.type the_schema = Some "file" ->
  ParameterObject.type parameterObject = Some "file" ->
  exists st1 st2 b,
    value (fresh n) = (Normal raw, st1)
    /\ error st1 = None
    /\ valid (read_all fs (fresh n)) = (Normal (Some b), st2)
    /\ (b = false
        <-> ParameterObject.required parameterObject = Some true
            /\ raw = VUndefined)
    /\ conversions st2 = 0
    /\ validations st2 = 0
    /\ heap st2 = parameterObject.
Proof.
  intros Hschema Htype. apply is_str_true in Hschema.
  assert (value (fresh n)
          = (Normal raw, mkState true None None raw parameterObject n []))
    as Hvalue.
  { unfold get_value, construct. run_monad. rewrite Hschema. reflexivity. }
  destruct (verdict_of_run n fs raw _ Hvalue eq_refl)
    as (st2 & Hrun & Hheap & Hcalls & Hconv).
  destruct (ParameterObject.required parameterObject) as [[]|] eqn:Hreq;
    destruct (isUndefined raw) eqn:Hraw.
  1: { apply isUndefined_true in Hraw. subst raw.
       rewrite (validation_missing Hreq) in Hrun, Hheap, Hcalls.
       cbn [fst snd trace heap nothing length] in *.
       destruct Hrun as [Hd _].
       do 2 eexists. exists false. repeat split; eauto. }
  all: assert (validation_run raw = (Normal tt, nothing)) as Hskip
      by (apply validation_skipped; right; right;
          split; [exact Htype|]; intros [H1 H2];
          try congruence; subst raw; discriminate).
  all: rewrite Hskip in Hrun, Hheap, Hcalls;
    cbn [fst snd trace heap nothing length] in *;
    destruct Hrun as [Hd _];
    do 2 eexists; exists true; repeat split; eauto;
    try discriminate; try (intros [H1 H2]; congruence);
    intros [H1 H2]; subst raw; discriminate.
Qed.

(** *** More on the verdict *)

(** X5: whenever the first read of [value] leaves a coercion error
    pending, [valid] is false after any reads, [error] is that very error
    object as it was thrown, the validator is never called, the
    descriptor is left as it is and the coercion function is not called
    again. *)
Theorem coercion_error_verdict (n : nat) (fs : list Facet) (v : JsValue)
    (st1 : State) (e0 : JsError) :
  value (fresh n) = (Normal v, st1) ->
  error st1 = Some e0 ->
  exists st2,
    valid (read_all fs (fresh n)) = (Normal (Some false), st2)
    /\ error_of (read_all fs (fresh n)) = (Normal (Some e0), st2)
    /\ processedValue st2 = v
    /\ heap st2 = parameterObject
    /\ validations st2 = 0
    /\ conversions st2 = conversions st1.
Proof.
  intros Hvalue Herr.
  destruct (instance_states n)
    as (pv & er & evs & n' & b & er2 & h2 & evs2
        & R0 & R1 & R2 & C0 & C1 & C2 & Hv & G & Hall & Hlen & Hverdict
        & Hside).
  cbn zeta in *. rewrite Hv in Hvalue.
  injection Hvalue as -> <-. cbn [error] in Herr. subst er.
  destruct (G fs) as [Gd Ge]. rewrite Gd, Ge.
  unfold verdict in Hverdict. destruct Hverdict as (-> & -> & -> & ->).
  destruct (count_calls evs [] Hall (or_introl eq_refl))
    as (K1 & K2 & K3 & K4).
  eexists. repeat split; unfold validations, conversions; cbn [trace];
    rewrite ?K1, ?K3, ?K4; reflexivity.
Qed.

(** X10: when the validator has been called, it alone decides: if it
    returns a result, [valid] is true exactly when the result has no
    errors, whatever its warnings, and then [error] is [undefined]; if it
    throws, [valid] is false and [error] is the thrown error with
    [failedValidation] and [schemaPath] written on it. *)
Theorem validator_decides (n : nat) (fs : list Facet) (v : JsValue)
    (st1 st2 : State) (b : bool) :
  value (fresh n) = (Normal v, st1) ->
  valid (read_all fs (fresh n)) = (Normal (Some b), st2) ->
  validations st2 = 1 ->
  match validateAgainstSchema escaped_document v
          (constructSchemaPathFromPtr
             (ParameterObject.ptr parameterObject)
             (ParameterObject.definition_schema parameterObject))
          validateOptions with
  | Normal res =>
      (b = true <-> errors res = [])
      /\ (b = true ->
          error_of (read_all fs (fresh n)) = (Normal None, st2))
  | Throw err =>
      b = false
      /\ error_of (read_all fs (fresh n))
         = (Normal (Some (stamped err)), st2)
  end.
Proof.
  intros Hvalue Hvalid Hone.
  destruct (error st1) as [e0|] eqn:Herr.
  { destruct (verdict_of_pending n fs v st1 e0 Hvalue Herr)
      as (st2' & Hd & _ & _ & Hcalls).
    rewrite Hd in Hvalid. injection Hvalid as <- <-. lia. }
  destruct (verdict_of_run n fs v st1 Hvalue Herr)
    as (st2' & Hrun & _ & Hcalls & _).
  assert (st2' = st2) as ->.
  { destruct (fst (validation_run v)); destruct Hrun as [Hd _];
      rewrite Hd in Hvalid; now injection Hvalid. }
  destruct (proj2 (validation_frame v false None None VUndefined 0 []))
    as [[_ Htr]|[_ Htr]]; [rewrite Htr in Hcalls; cbn in Hcalls; lia|].
  destruct (validation_called v Htr) as [_ Hcalled].
  destruct (validateAgainstSchema _ _ _ _) as [res|err].
  - destruct Hcalled as [[Hnil Hc]|[Hne Hc]]; rewrite Hc in Hrun;
      destruct Hrun as [Hd He]; rewrite Hd in Hvalid;
      injection Hvalid as <-.
    + repeat split; auto.
    + repeat split; intros; congruence.
  - rewrite Hcalled in Hrun. destruct Hrun as [Hd He].
    rewrite Hd in Hvalid. injection Hvalid as <-. split; [reflexivity|].
    exact He.
Qed.


Lemma validation_native (v : JsValue) :
  (Schema.type the_schema = Some "string"
   /\ (Schema.format the_schema = Some "date"
       \/ Schema.format the_schema = Some "date-time")
   /\ exists r t, v = VDate r t)
  \/ (Schema.type the_schema = Some "string"
      /\ exists r bytes, v = VBuffer r bytes)
  \/ (Schema.type the_schema <> Some "string"
      /\ isFile the_schema = true
      /\ ~ (ParameterObject.required parameterObject = Some true
            /\ v = VUndefined)) ->
  validation_run v = (Normal tt, nothing).
Proof.
  intros Hcase. unfold validation_run, validate, skip_validation.
  destruct Hcase
    as [(Hstring & Hformat & r & t & ->)
       | [(Hstring & r & bytes & ->) | (Hstring & Hfile & Hnot)]].
  - apply is_str_true in Hstring.
    assert (is_date_format (Schema.format the_schema) = true) as Hdate
        by (unfold is_date_format; destruct Hformat as [-> | ->];
            reflexivity).
    destruct (ParameterObject.required parameterObject) as [[]|] eqn:E;
      run_with E;
      destruct (is_true (Schema.allowEmptyValue the_schema));
      run_with E;
      destruct (is_str (ParameterObject.type parameterObject) "file");
      run_with E; rewrite ?Hstring; run_with E; rewrite ?Hdate;
      reflexivity.
  - apply is_str_true in Hstring.
    destruct (ParameterObject.required parameterObject) as [[]|] eqn:E;
      run_with E;
      destruct (is_true (Schema.allowEmptyValue the_schema));
      run_with E;
      destruct (is_str (ParameterObject.type parameterObject) "file");
      run_with E; rewrite ?Hstring; run_with E;
      destruct (is_date_format (Schema.format the_schema));
      run_with E; rewrite ?Hstring; reflexivity.
  - apply is_str_false in Hstring.
    destruct (ParameterObject.required parameterObject) as [[]|] eqn:E;
      destruct (isUndefined v) eqn:Hv;
      try (apply isUndefined_true in Hv; tauto);
      run_with E; rewrite ?Hv; run_with E;
      destruct (is_true (Schema.allowEmptyValue the_schema)
                && strict_eq v (VString ""));
      run_with E;
      destruct (is_str (ParameterObject.type parameterObject) "file");
      run_with E; rewrite ?Hstring; run_with E; rewrite ?Hfile;
      reflexivity.
Qed.

(** X11: with no coercion error pending, [valid] is true without the
    validator being called (and the descriptor is left as it is) when the
    schema is a string with format [date] or [date-time] and the value is
    a [Date], when the schema is a string and the value is a [Buffer], and
    when the schema is not a string, [helpers.isFile] holds of it and the
    value is not both required and [undefined]. *)
Theorem native_values_not_validated (n : nat) (fs : list Facet)
    (v : JsValue) (st1 : State) :
  value (fresh n) = (Normal v, st1) ->
  error st1 = None ->
  (Schema.type the_schema = Some "string"
   /\ (Schema.format the_schema = Some "date"
       \/ Schema.format the_schema = Some "date-time")
   /\ exists r t, v = VDate r t)
  \/ (Schema.type the_schema = Some "string"
      /\ exists r bytes, v = VBuffer r bytes)
  \/ (Schema.type the_schema <> Some "string"
      /\ isFile the_schema = true
      /\ ~ (ParameterObject.required parameterObject = Some true
            /\ v = VUndefined)) ->
  exists st2,
    valid (read_all fs (fresh n)) = (Normal (Some true), st2)
    /\ error_of (read_all fs (fresh n)) = (Normal None, st2)
    /\ validations st2 = 0
    /\ heap st2 = parameterObject.
Proof.
  intros Hvalue Herr Hcase.
  destruct (verdict_of_run n fs v st1 Hvalue Herr)
    as (st2 & Hrun & Hheap & Hcalls & _).
  rewrite (validation_native v Hcase) in Hrun, Hheap, Hcalls.
  cbn [fst snd trace heap nothing length] in Hrun, Hheap, Hcalls.
  destruct Hrun as [Hd He].
  exists st2. repeat split; assumption.
Qed.

Lemma validation_reached (v : JsValue) :
  ParameterObject.type parameterObject <> Some "file" ->
  Schema.type the_schema = Some "string" \/ isFile the_schema = false ->
  (exists z, v = VNumber z)
  \/ (exists b, v = VBool b)
  \/ (exists s, v = VString s
                /\ (s <> "" \/ Schema.allowEmptyValue the_schema
                               <> Some true)) ->
  heap (snd (validation_run v)) = escaped
  /\ trace (snd (validation_run v)) = [validator_call v].
Proof.
  intros Hfile Hschema Hprim.
  apply is_str_false in Hfile.
  assert (is_str (Schema.type the_schema) "string" = true
          \/ (is_str (Schema.type the_schema) "string" = false
              /\ isFile the_schema = false)) as Hbranch.
  { destruct Hschema as [H|H]; [left; now apply is_str_true|].
    destruct (is_str (Schema.type the_schema) "string"); auto. }
  assert (is_true (Schema.allowEmptyValue the_schema)
          && strict_eq v (VString "") = false) as Hempty.
  { destruct Hprim as [(z & ->) | [(b & ->) | (s & -> & Hs)]];
      try apply andb_false_r.
    destruct Hs as [Hs|Hs].
    - cbn [strict_eq]. apply String.eqb_neq in Hs. rewrite Hs.
      apply andb_false_r.
    - destruct (Schema.allowEmptyValue the_schema) as [[]|];
        [congruence | reflexivity | reflexivity]. }
  assert (isUndefined v = false /\ isDate v = false
          /\ get_prop v "readUInt8" = Normal VUndefined)
    as (Hundef & Hdate & Hprobe)
      by (destruct Hprim as [(z & ->) | [(b & ->) | (s & -> & _)]];
          repeat split).
  unfold validation_run, validate, skip_validation, escapePaths,
    call_validateAgainstSchema, escaped, escaped_document, validator_call.
  run_monad. rewrite Hundef, !andb_false_r. run_monad.
  rewrite Hempty, Hfile.
  destruct Hbranch as [Hs | [Hs Hf]]; rewrite Hs; run_monad.
  - rewrite Hdate, andb_false_r, Hprobe. run_monad. cbn [isFunction negb].
    run_monad.
    destruct (validateAgainstSchema _ _ _ _) as [res|err]; run_monad;
      [destruct (Nat.ltb 0 (length (errors res)))|]; split; reflexivity.
  - rewrite Hf. run_monad.
    destruct (validateAgainstSchema _ _ _ _) as [res|err]; run_monad;
      [destruct (Nat.ltb 0 (length (errors res)))|]; split; reflexivity.
Qed.

(** X12: with no coercion error pending and a descriptor that is not a
    file parameter, a number, a boolean or a string (other than the empty
    string under [allowEmptyValue]) is always put to the validator, for a
    string schema and for any schema of which [helpers.isFile] does not
    hold: the validator is called exactly once and the document has been
    through [escapePaths]. *)
Theorem primitives_are_validated (n : nat) (fs : list Facet) (v : JsValue)
    (st1 : State) :
  value (fresh n) = (Normal v, st1) ->
  error st1 = None ->
  ParameterObject.type parameterObject <> Some "file" ->
  Schema.type the_schema = Some "string" \/ isFile the_schema = false ->
  (exists z, v = VNumber z)
  \/ (exists b, v = VBool b)
  \/ (exists s, v = VString s
                /\ (s <> "" \/ Schema.allowEmptyValue the_schema
                               <> Some true)) ->
  exists st2 b,
    valid (read_all fs (fresh n)) = (Normal (Some b), st2)
    /\ validations st2 = 1
    /\ heap st2 = escaped.
Proof.
  intros Hvalue Herr Hfile Hschema Hprim.
  destruct (verdict_of_run n fs v st1 Hvalue Herr)
    as (st2 & Hrun & Hheap & Hcalls & _).
  destruct (validation_reached v Hfile Hschema Hprim) as [Hh Ht].
  rewrite Hh in Hheap. rewrite Ht in Hcalls. cbn [length] in Hcalls.
  exists st2.
  destruct (fst (validation_run v)); destruct Hrun as [Hd _];
    eexists; repeat split; eassumption.
Qed.

End Properties.

(* ===================================================================== *)
(** ** The theorems at sample inputs *)
(* ===================================================================== *)

(** [oneOf: [{type:'string'}, {type:'integer'}]] and the raw value
    ["5"]: the string alternative returns the raw value, the integer one
    returns [5]; the first read of [value] has called the coercion
    function twice. *)
Lemma oneOf_converts_each_alternative :
  let p := Sample.string_or_integer in
  let st1 := snd (Sample.value_of p (VString "5") (construct p 0)) in
  fst (Sample.value_of p (VString "5") (construct p 0)) = Normal (VNumber 5)
  /\ conversions st1 = 2
  /\ ~ conversions st1 <= 1.
Proof. vm_compute. repeat split. lia. Qed.

(** C3: at [oneOf: [{type:'string'}, {type:'integer'}]] and the raw value
    ["abc"] the coercion function throws on the second alternative, yet
    [value] is not [undefined]: it is the result the first alternative
    left behind.  The thrown error is pending and [valid] is false. *)
Theorem C3_stale_value_after_throw :
  let p := Sample.string_or_integer in
  let raw := VString "abc" in
  Sample.convertValue (Sample.schema_of "integer") None raw
  = Throw (Sample.invalid_type "Not a valid integer")
  /\ fst (Sample.value_of p raw (construct p 0)) = Normal (VString "abc")
  /\ error (snd (Sample.value_of p raw (construct p 0)))
     = Some (Sample.invalid_type "Not a valid integer")
  /\ fst (Sample.valid_of Sample.accept_all p raw (construct p 0))
     = Normal (Some false).
Proof. vm_compute. repeat split; reflexivity. Qed.

(** A required integer that is absent. *)
Lemma C4_missing_required_example :
  let p := Sample.required_integer in
  let st1 := snd (Sample.value_of p VUndefined (construct p 0)) in
  ParameterObject.required p = Some true
  /\ Sample.value_of p VUndefined (construct p 0) = (Normal VUndefined, st1)
  /\ error st1 = None
  /\ exists st2,
       Sample.valid_of Sample.accept_all p VUndefined
         (Sample.reads_of Sample.accept_all p VUndefined [Value])
       = (Normal (Some false), st2)
       /\ Sample.error_of Sample.accept_all p VUndefined
            (Sample.reads_of Sample.accept_all p VUndefined [Value])
          = (Normal (Some (stamped p missing_required)), st2)
       /\ e_code (stamped p missing_required)
          = Some "MISSING_REQUIRED_PARAMETER"
       /\ e_code (stamped p missing_required)
          <> Some "SCHEMA_VALIDATION_FAILED"
       /\ validations st2 = 0.
Proof.
  cbv zeta. split; [reflexivity|]. split; [reflexivity|].
  split; [reflexivity|].
  apply (C4_missing_required Sample.convertValue Sample.isFile
           Sample.escapeSingleQuotes Sample.constructSchemaPathFromPtr
           Sample.accept_all Sample.required_integer VUndefined VUndefined
           0 [Value]
           (snd (Sample.value_of Sample.required_integer VUndefined
                   (construct Sample.required_integer 0))));
    reflexivity.
Defined.

(** A required integer given ["abc"]: the value is [undefined] and the
    descriptor is required, but the error is the coercion error, not the
    missing-required one. *)
Lemma required_with_coercion_error :
  let p := Sample.required_integer in
  let raw := VString "abc" in
  ParameterObject.required p = Some true
  /\ fst (Sample.value_of p raw (construct p 0)) = Normal VUndefined
  /\ fst (Sample.valid_of Sample.accept_all p raw (construct p 0))
     = Normal (Some false)
  /\ ~ (exists e,
           fst (Sample.error_of Sample.accept_all p raw (construct p 0))
           = Normal (Some e)
           /\ e_code e = Some "MISSING_REQUIRED_PARAMETER").
Proof.
  cbv zeta. repeat split; try reflexivity.
  intros (e & He & Hcode). vm_compute in He. injection He as <-.
  discriminate Hcode.
Qed.

(** An optional integer that is absent. *)
Lemma C5_validation_skipped_example :
  let p := Sample.optional_integer in
  let st1 := snd (Sample.value_of p VUndefined (construct p 0)) in
  Sample.value_of p VUndefined (construct p 0) = (Normal VUndefined, st1)
  /\ error st1 = None
  /\ ParameterObject.required p <> Some true
  /\ exists st2,
       Sample.valid_of Sample.reject_all p VUndefined
         (Sample.reads_of Sample.reject_all p VUndefined [])
       = (Normal (Some true), st2)
       /\ Sample.error_of Sample.reject_all p VUndefined
            (Sample.reads_of Sample.reject_all p VUndefined [])
          = (Normal None, st2)
       /\ validations st2 = 0
       /\ heap st2 = p.
Proof.
  cbv zeta. split; [reflexivity|]. split; [reflexivity|].
  split; [discriminate|].
  apply (C5_validation_skipped Sample.convertValue Sample.isFile
           Sample.escapeSingleQuotes Sample.constructSchemaPathFromPtr
           Sample.reject_all Sample.optional_integer VUndefined VUndefined
           0 [] VUndefined
           (snd (Sample.value_of Sample.optional_integer VUndefined
                   (construct Sample.optional_integer 0))));
    [reflexivity | reflexivity |].
  left. split; [discriminate | reflexivity].
Defined.

(** Two inputs on which a skip condition holds and [valid] is false.  A
    required file parameter that is absent: the descriptor is a file
    parameter and no coercion error is pending, but the requiredness check
    comes first.  An optional integer given ["abc"]: the descriptor is not
    required and the value is [undefined], but a coercion error is
    pending. *)
Lemma skip_conditions_do_not_suffice :
  (let p := Sample.required_file in
   ParameterObject.type p = Some "file"
   /\ error (snd (Sample.value_of p VUndefined (construct p 0))) = None
   /\ fst (Sample.valid_of Sample.accept_all p VUndefined (construct p 0))
      <> Normal (Some true))
  /\ (let p := Sample.optional_integer in
      let raw := VString "abc" in
      ParameterObject.required p = Some false
      /\ fst (Sample.value_of p raw (construct p 0)) = Normal VUndefined
      /\ error (snd (Sample.value_of p raw (construct p 0))) <> None
      /\ fst (Sample.valid_of Sample.accept_all p raw (construct p 0))
         <> Normal (Some true)).
Proof.
  cbv zeta. repeat split; try reflexivity; vm_compute; discriminate.
Qed.



(** An array schema with [items: [{default: 1}, {}]] and no raw value: the
    partly defaulted tuple [[1, undefined]] is the value. *)
Lemma C7_default_fallback_example :
  let p := Sample.tuple_array in
  let stc := snd (Sample.coercion_of p VUndefined (construct p 0)) in
  Schema.type (schema p) <> Some "file"
  /\ Sample.coercion_of p VUndefined (construct p 0) = (Normal tt, stc)
  /\ processedValue stc = VUndefined
  /\ error stc = None
  /\ exists st1,
       Sample.value_of p VUndefined (construct p 0)
       = (Normal (VArray 0 [VNumber 1; VUndefined]), st1).
Proof.
  cbv zeta. split; [discriminate|]. split; [reflexivity|].
  split; [reflexivity|]. split; [reflexivity|].
  destruct (C7_default_fallback Sample.convertValue Sample.tuple_array
              VUndefined 0
              (snd (Sample.coercion_of Sample.tuple_array VUndefined
                      (construct Sample.tuple_array 0))))
    as (v & st1 & Hvalue & Htuple & _);
    [discriminate | reflexivity | reflexivity | reflexivity |].
  exists st1.
  destruct (Htuple Sample.tuple_items eq_refl eq_refl) as [Hsome _].
  assert (Exists (fun s => Schema.default s <> VUndefined)
                 Sample.tuple_items) as Hex
      by (constructor 1; discriminate).
  unfold Sample.value_of. rewrite Hvalue, (Hsome Hex). reflexivity.
Defined.

(** An integer ["42"] that the validator rejects, on a document with a
    quoted path key. *)
Lemma C8_errors_of_validation_example :
  let p := Sample.optional_integer_odata in
  let raw := VString "42" in
  let st1 := snd (Sample.value_of p raw (construct p 0)) in
  let st2 := snd (Sample.valid_of Sample.reject_all p raw (construct p 0)) in
  Sample.value_of p raw (construct p 0) = (Normal (VNumber 42), st1)
  /\ Sample.valid_of Sample.reject_all p raw
       (Sample.reads_of Sample.reject_all p raw [])
     = (Normal (Some false), st2)
  /\ exists e,
       Sample.error_of Sample.reject_all p raw
         (Sample.reads_of Sample.reject_all p raw [])
       = (Normal (Some e), st2)
       /\ e_failedValidation e = Some true
       /\ e_schemaPath e = Some (ParameterObject.ptr p)
       /\ e_code e = Some "SCHEMA_VALIDATION_FAILED"
       /\ e_errors e = Some [VString "INVALID_FORMAT"].
Proof.
  cbv zeta. split; [reflexivity|]. split; [reflexivity|].
  destruct (C8_errors_of_validation Sample.convertValue Sample.isFile
              Sample.escapeSingleQuotes Sample.constructSchemaPathFromPtr
              Sample.reject_all Sample.optional_integer_odata (VString "42")
              VUndefined 0 [] (VNumber 42)
              (snd (Sample.value_of Sample.optional_integer_odata
                      (VString "42")
                      (construct Sample.optional_integer_odata 0)))
              (snd (Sample.valid_of Sample.reject_all
                      Sample.optional_integer_odata (VString "42")
                      (construct Sample.optional_integer_odata 0))))
    as [Hstamped _]; [reflexivity | reflexivity |].
  destruct (Hstamped eq_refl) as (e & He & Hflag & Hpath & _ & Hfailed).
  destruct (Hfailed (mkResult [VString "INVALID_FORMAT"] []) eq_refl eq_refl)
    as (_ & Hcode & Herrors).
  exists e. repeat split; assumption.
Defined.

(** An integer given ["abc"]: [valid] is false because of the captured
    coercion error, and the error exposed has neither the flag nor the
    pointer. *)
Lemma coercion_error_not_stamped :
  let p := Sample.optional_integer in
  let raw := VString "abc" in
  fst (Sample.valid_of Sample.accept_all p raw (construct p 0))
  = Normal (Some false)
  /\ exists e,
       fst (Sample.error_of Sample.accept_all p raw (construct p 0))
       = Normal (Some e)
       /\ e_failedValidation e <> Some true
       /\ e_schemaPath e <> Some (ParameterObject.ptr p).
Proof.
  cbv zeta. split; [reflexivity|].
  exists (Sample.invalid_type "Not a valid integer").
  repeat split; discriminate.
Qed.

(** A document whose [paths] has the key [/users('{id}')]: validating one
    parameter adds the key [/users(\'{id}\')] to the document. *)
Lemma escapePaths_adds_keys :
  let p := Sample.optional_integer_odata in
  let st := Sample.reads_of Sample.accept_all p (VString "42") [Valid] in
  Obj.keys (Document.paths (ParameterObject.api_definition p))
  = ["/users('{id}')"]
  /\ Obj.keys (Document.paths (ParameterObject.api_definition (heap st)))
     = ["/users('{id}')"; "/users(\'{id}\')"]
  /\ heap st <> p.
Proof.
  cbv zeta. repeat split. vm_compute. discriminate.
Qed.

(** Two string schemas whose coerced value is [null] and whose exposed
    error is not the stamped [TypeError].  On a descriptor declared a
    file parameter the probe of [value.readUInt8] is not reached:
    [valid] is true and there is no error.  When [oneOf] left the raw
    [null] as it is and then threw on it, [value] is [null] with the
    coercion error pending: [valid] is false and the error exposed is
    that coercion error, with its own code and without
    [failedValidation] or [schemaPath]. *)
Lemma null_string_value_not_stamped :
  (let p := Sample.string_null_in_file in
   let st := Sample.reads_of Sample.accept_all p VUndefined [Valid] in
   Schema.type (schema p) = Some "string"
   /\ Schema.format (schema p) = None
   /\ fst (Sample.value_of p VUndefined (construct p 0)) = Normal VNull
   /\ fst (Sample.valid_of Sample.accept_all p VUndefined (construct p 0))
      = Normal (Some true)
   /\ fst (Sample.error_of Sample.accept_all p VUndefined st)
      = Normal None)
  /\ (let p := Sample.string_untyped_or_integer in
      let st := Sample.reads_of Sample.accept_all p VNull [Valid] in
      Schema.type (schema p) = Some "string"
      /\ Schema.format (schema p) = None
      /\ ParameterObject.type p <> Some "file"
      /\ fst (Sample.value_of p VNull (construct p 0)) = Normal VNull
      /\ fst (Sample.valid_of Sample.accept_all p VNull (construct p 0))
         = Normal (Some false)
      /\ exists e,
           fst (Sample.error_of Sample.accept_all p VNull st)
           = Normal (Some e)
           /\ e_code e = Some "INVALID_TYPE"
           /\ e_failedValidation e = None
           /\ e_schemaPath e = None).
Proof.
  cbv zeta. split.
  - repeat split.
  - split; [reflexivity|]. split; [reflexivity|]. split; [discriminate|].
    split; [reflexivity|]. split; [reflexivity|].
    eexists. split; [reflexivity|]. repeat split.
Qed.

(** A string schema with [default: null] and no raw value. *)
Lemma C10_null_string_value_example :
  let p := Sample.string_default_null in
  let st1 := snd (Sample.value_of p VUndefined (construct p 0)) in
  Schema.type (schema p) = Some "string"
  /\ ParameterObject.type p <> Some "file"
  /\ Sample.value_of p VUndefined (construct p 0) = (Normal VNull, st1)
  /\ error st1 = None
  /\ exists st2 e,
       Sample.valid_of Sample.accept_all p VUndefined
         (Sample.reads_of Sample.accept_all p VUndefined [Value; Error])
       = (Normal (Some false), st2)
       /\ Sample.error_of Sample.accept_all p VUndefined
            (Sample.reads_of Sample.accept_all p VUndefined [Value; Error])
          = (Normal (Some e), st2)
       /\ e_name e = "TypeError"
       /\ e_failedValidation e = Some true
       /\ e_schemaPath e = Some (ParameterObject.ptr p)
       /\ e_code e = None
       /\ e_code e <> Some "MISSING_REQUIRED_PARAMETER"
       /\ e_code e <> Some "SCHEMA_VALIDATION_FAILED"
       /\ validations st2 = 0.
Proof.
  cbv zeta. split; [reflexivity|]. split; [discriminate|].
  split; [reflexivity|]. split; [reflexivity|].
  apply (C10_null_string_value Sample.convertValue Sample.isFile
           Sample.escapeSingleQuotes Sample.constructSchemaPathFromPtr
           Sample.accept_all Sample.string_default_null VUndefined VUndefined
           0 [Value; Error]
           (snd (Sample.value_of Sample.string_default_null VUndefined
                   (construct Sample.string_default_null 0))));
    [reflexivity | discriminate | reflexivity | reflexivity].
Defined.

(** The stand-in for the path-key escaper is idempotent, as the escaper
    is required to be. *)
Lemma escape_after_idempotent (s : string) (escaped : bool) :
  Sample.escape_after escaped (Sample.escape_after escaped s)
  = Sample.escape_after escaped s.
Proof.
  revert escaped; induction s as [|c s IH]; intros escaped; [reflexivity|].
  cbn [Sample.escape_after].
  destruct (Ascii.eqb c Sample.quote) eqn:Equote.
  - destruct escaped; cbn [Sample.escape_after].
    + now rewrite Equote, IH.
    + apply Ascii.eqb_eq in Equote. subst c.
      change (Ascii.eqb Sample.backslash Sample.quote) with false.
      change (Ascii.eqb Sample.backslash Sample.backslash) with true.
      cbn [Sample.escape_after].
      change (Ascii.eqb Sample.quote Sample.quote) with true.
      now rewrite IH.
  - cbn [Sample.escape_after]. now rewrite Equote, IH.
Qed.

Lemma escapeSingleQuotes_idempotent (key : string) :
  Sample.escapeSingleQuotes (Sample.escapeSingleQuotes key)
  = Sample.escapeSingleQuotes key.
Proof. apply escape_after_idempotent. Qed.

(** A required file parameter given a [Buffer]. *)
Lemma file_parameter_example :
  let p := Sample.required_file in
  let raw := VBuffer 7 [1%Z; 2%Z] in
  Schema.type (schema p) = Some "file"
  /\ ParameterObject.type p = Some "file"
  /\ exists st1 st2 b,
       Sample.value_of p raw (construct p 0) = (Normal raw, st1)
       /\ error st1 = None
       /\ Sample.valid_of Sample.reject_all p raw
            (Sample.reads_of Sample.reject_all p raw [Error])
          = (Normal (Some b), st2)
       /\ (b = false
           <-> ParameterObject.required p = Some true /\ raw = VUndefined)
       /\ conversions st2 = 0
       /\ validations st2 = 0
       /\ heap st2 = p.
Proof.
  cbv zeta. split; [reflexivity|]. split; [reflexivity|].
  apply (file_parameter Sample.convertValue Sample.isFile
           Sample.escapeSingleQuotes Sample.constructSchemaPathFromPtr
           Sample.reject_all Sample.required_file (VBuffer 7 [1%Z; 2%Z])
           VUndefined 0 [Error]); reflexivity.
Defined.

(** Three reads of [value] of an integer ["42"]. *)
Lemma value_reads_frame_example :
  let p := Sample.optional_integer_odata in
  let raw := VString "42" in
  let st := Sample.reads_of Sample.reject_all p raw [Value; Value; Value] in
  Forall (fun f => f = Value) [Value; Value; Value]
  /\ isValid st = None
  /\ validations st = 0
  /\ heap st = p
  /\ ([Value; Value; Value] <> [] ->
      st = snd (Sample.value_of p raw (construct p 0))
      /\ processed st = true).
Proof.
  cbv zeta. split; [repeat constructor|].
  apply (value_reads_frame Sample.convertValue Sample.isFile
           Sample.escapeSingleQuotes Sample.constructSchemaPathFromPtr
           Sample.reject_all Sample.optional_integer_odata (VString "42")
           VUndefined 0 [Value; Value; Value]).
  repeat constructor.
Defined.

(** [value], then [error], then [value] again. *)
Lemma reads_confluent_example :
  let p := Sample.optional_integer_odata in
  let raw := VString "42" in
  Exists (fun f => f <> Value) [Value; Error; Value]
  /\ Sample.reads_of Sample.reject_all p raw [Value; Error; Value]
     = snd (Sample.valid_of Sample.reject_all p raw (construct p 0)).
Proof.
  cbv zeta.
  assert (Exists (fun f => f <> Value) [Value; Error; Value]) as Hex
      by (constructor 2; constructor 1; discriminate).
  split; [exact Hex|].
  apply (reads_confluent Sample.convertValue Sample.isFile
           Sample.escapeSingleQuotes Sample.constructSchemaPathFromPtr
           Sample.reject_all Sample.optional_integer_odata (VString "42")
           VUndefined 0 [Value; Error; Value] Hex).
Defined.

(** An integer ["42"] on a schema with no default. *)
Lemma defaults_only_when_nothing_example :
  let p := Sample.integer_default_7 in
  let raw := VString "42" in
  let stc := snd (Sample.coercion_of p raw (construct p 0)) in
  Schema.type (schema p) <> Some "file"
  /\ Sample.coercion_of p raw (construct p 0) = (Normal tt, stc)
  /\ processedValue stc <> VUndefined
  /\ Sample.value_of p raw (construct p 0)
     = (Normal (VNumber 42), with_processed true stc).
Proof.
  cbv zeta. split; [discriminate|]. split; [reflexivity|].
  split; [discriminate|].
  apply (defaults_only_when_nothing Sample.convertValue
           Sample.integer_default_7 (VString "42") 0
           (snd (Sample.coercion_of Sample.integer_default_7 (VString "42")
                   (construct Sample.integer_default_7 0))));
    [discriminate | reflexivity | left; discriminate].
Defined.

(** An optional integer given ["abc"]. *)
Lemma coercion_error_verdict_example :
  let p := Sample.optional_integer_odata in
  let raw := VString "abc" in
  let st1 := snd (Sample.value_of p raw (construct p 0)) in
  Sample.value_of p raw (construct p 0) = (Normal VUndefined, st1)
  /\ error st1 = Some (Sample.invalid_type "Not a valid integer")
  /\ exists st2,
       Sample.valid_of Sample.accept_all p raw
         (Sample.reads_of Sample.accept_all p raw [Error; Value])
       = (Normal (Some false), st2)
       /\ Sample.error_of Sample.accept_all p raw
            (Sample.reads_of Sample.accept_all p raw [Error; Value])
          = (Normal (Some (Sample.invalid_type "Not a valid integer")), st2)
       /\ processedValue st2 = VUndefined
       /\ heap st2 = p
       /\ validations st2 = 0
       /\ conversions st2 = conversions st1.
Proof.
  cbv zeta. split; [reflexivity|]. split; [reflexivity|].
  apply (coercion_error_verdict Sample.convertValue Sample.isFile
           Sample.escapeSingleQuotes Sample.constructSchemaPathFromPtr
           Sample.accept_all Sample.optional_integer_odata (VString "abc")
           VUndefined 0 [Error; Value] VUndefined
           (snd (Sample.value_of Sample.optional_integer_odata
                   (VString "abc")
                   (construct Sample.optional_integer_odata 0)))
           (Sample.invalid_type "Not a valid integer"));
    reflexivity.
Defined.

(** An integer schema with a default, given ["abc"]: the default is not
    used. *)
Lemma throw_without_oneOf_example :
  let p := Sample.parameter (Sample.schema_with_default "integer" (VNumber 7))
                            None Sample.empty_document in
  let raw := VString "abc" in
  Schema.oneOf (schema p) = None
  /\ Schema.type (schema p) <> Some "file"
  /\ Sample.convertValue (schema p) (ParameterObject.collectionFormat p) raw
     = Throw (Sample.invalid_type "Not a valid integer")
  /\ exists st1 st2,
       Sample.value_of p raw (construct p 0) = (Normal VUndefined, st1)
       /\ error st1 = Some (Sample.invalid_type "Not a valid integer")
       /\ Sample.valid_of Sample.accept_all p raw
            (Sample.reads_of Sample.accept_all p raw [])
          = (Normal (Some false), st2)
       /\ Sample.error_of Sample.accept_all p raw
            (Sample.reads_of Sample.accept_all p raw [])
          = (Normal (Some (Sample.invalid_type "Not a valid integer")), st2)
       /\ validations st2 = 0.
Proof.
  cbv zeta. split; [reflexivity|]. split; [discriminate|].
  split; [reflexivity|].
  apply (throw_without_oneOf Sample.convertValue Sample.isFile
           Sample.escapeSingleQuotes Sample.constructSchemaPathFromPtr
           Sample.accept_all
           (Sample.parameter (Sample.schema_with_default "integer" (VNumber 7))
                             None Sample.empty_document)
           (VString "abc") VUndefined 0 []
           (Sample.invalid_type "Not a valid integer"));
    [reflexivity | discriminate | reflexivity].
Defined.

(** A second parameter value validated against the document with the key
    [/users('{id}')], after a first one had it escaped. *)
Lemma shared_document_settled_example :
  let q := Document.paths Sample.odata_document in
  let p := Sample.optional_integer_shared in
  (forall k, In k (Obj.keys q) ->
             Sample.escapeSingleQuotes (Sample.escapeSingleQuotes k)
             = Sample.escapeSingleQuotes k)
  /\ (forall k k', In k (Obj.keys q) -> In k' (Obj.keys q) ->
                   Sample.escapeSingleQuotes k = Sample.escapeSingleQuotes k'
                   -> k = k')
  /\ Document.paths (ParameterObject.api_definition p)
     = escape_keys Sample.escapeSingleQuotes q
  /\ heap (Sample.reads_of Sample.accept_all p (VString "42") [Valid]) = p.
Proof.
  cbv zeta.
  assert (forall k, In k (Obj.keys (Document.paths Sample.odata_document)) ->
                    Sample.escapeSingleQuotes (Sample.escapeSingleQuotes k)
                    = Sample.escapeSingleQuotes k) as Hidem
      by (intros k [<-|[]]; reflexivity).
  assert (forall k k',
             In k (Obj.keys (Document.paths Sample.odata_document)) ->
             In k' (Obj.keys (Document.paths Sample.odata_document)) ->
             Sample.escapeSingleQuotes k = Sample.escapeSingleQuotes k' ->
             k = k') as Hinj
      by (intros k k' [<-|[]] [<-|[]] _; reflexivity).
  split; [exact Hidem|]. split; [exact Hinj|]. split; [reflexivity|].
  apply (shared_document_settled Sample.convertValue Sample.isFile
           Sample.escapeSingleQuotes Sample.constructSchemaPathFromPtr
           Sample.accept_all Sample.optional_integer_shared (VString "42")
           VUndefined (Document.paths Sample.odata_document) 0 [Valid]
           Hidem Hinj eq_refl).
Defined.

(** The one key of the document with [/users('{id}')]. *)
Lemma escape_keys_values_example :
  let o := Document.paths Sample.odata_document in
  let k := "/users('{id}')" in
  let esc := Sample.escapeSingleQuotes in
  (forall k, In k (Obj.keys o) -> esc (esc k) = esc k)
  /\ (forall k k', In k (Obj.keys o) -> In k' (Obj.keys o) ->
                   esc k = esc k' -> k = k')
  /\ In k (Obj.keys o)
  /\ Obj.get k (escape_keys esc o) = Some (VObject 1 [])
  /\ Obj.get "/users(\'{id}\')" (escape_keys esc o) = Some (VObject 1 []).
Proof.
  cbv zeta.
  assert (forall k, In k (Obj.keys (Document.paths Sample.odata_document)) ->
                    Sample.escapeSingleQuotes (Sample.escapeSingleQuotes k)
                    = Sample.escapeSingleQuotes k) as Hidem
      by (intros k [<-|[]]; reflexivity).
  assert (forall k k',
             In k (Obj.keys (Document.paths Sample.odata_document)) ->
             In k' (Obj.keys (Document.paths Sample.odata_document)) ->
             Sample.escapeSingleQuotes k = Sample.escapeSingleQuotes k' ->
             k = k') as Hinj
      by (intros k k' [<-|[]] [<-|[]] _; reflexivity).
  assert (In "/users('{id}')"
             (Obj.keys (Document.paths Sample.odata_document))) as Hin
      by (now left).
  split; [exact Hidem|]. split; [exact Hinj|]. split; [exact Hin|].
  destruct (escape_keys_values Sample.escapeSingleQuotes
              (Document.paths Sample.odata_document) "/users('{id}')"
              Hidem Hinj Hin) as (H1 & H2 & _).
  split; [exact H1 | exact H2].
Defined.

(** An integer ["42"] put to a validator that rejects it, and to one that
    accepts it. *)
Lemma validator_decides_example :
  let p := Sample.optional_integer_odata in
  let raw := VString "42" in
  let st1 := snd (Sample.value_of p raw (construct p 0)) in
  let st2 := snd (Sample.valid_of Sample.reject_all p raw (construct p 0)) in
  Sample.value_of p raw (construct p 0) = (Normal (VNumber 42), st1)
  /\ Sample.valid_of Sample.reject_all p raw
       (Sample.reads_of Sample.reject_all p raw [Value])
     = (Normal (Some false), st2)
  /\ validations st2 = 1
  /\ (false = true <-> [VString "INVALID_FORMAT"] = []).
Proof.
  cbv zeta. split; [reflexivity|]. split; [reflexivity|].
  split; [reflexivity|].
  exact (proj1
           (validator_decides Sample.convertValue Sample.isFile
              Sample.escapeSingleQuotes Sample.constructSchemaPathFromPtr
              Sample.reject_all Sample.optional_integer_odata (VString "42")
              VUndefined 0 [Value] (VNumber 42)
              (snd (Sample.value_of Sample.optional_integer_odata
                      (VString "42")
                      (construct Sample.optional_integer_odata 0)))
              (snd (Sample.valid_of Sample.reject_all
                      Sample.optional_integer_odata (VString "42")
                      (construct Sample.optional_integer_odata 0)))
              false eq_refl eq_refl eq_refl)).
Defined.

(** A date parameter whose value is the [Date] its schema gives as
    default. *)
Lemma native_values_not_validated_example :
  let p := Sample.date_with_default in
  let st1 := snd (Sample.value_of p VUndefined (construct p 0)) in
  Sample.value_of p VUndefined (construct p 0) = (Normal (VDate 3 0), st1)
  /\ error st1 = None
  /\ Schema.type (schema p) = Some "string"
  /\ Schema.format (schema p) = Some "date"
  /\ exists st2,
       Sample.valid_of Sample.reject_all p VUndefined
         (Sample.reads_of Sample.reject_all p VUndefined [])
       = (Normal (Some true), st2)
       /\ Sample.error_of Sample.reject_all p VUndefined
            (Sample.reads_of Sample.reject_all p VUndefined [])
          = (Normal None, st2)
       /\ validations st2 = 0
       /\ heap st2 = p.
Proof.
  cbv zeta. split; [reflexivity|]. split; [reflexivity|].
  split; [reflexivity|]. split; [reflexivity|].
  apply (native_values_not_validated Sample.convertValue Sample.isFile
           Sample.escapeSingleQuotes Sample.constructSchemaPathFromPtr
           Sample.reject_all Sample.date_with_default VUndefined VUndefined
           0 [] (VDate 3 0)
           (snd (Sample.value_of Sample.date_with_default VUndefined
                   (construct Sample.date_with_default 0))));
    [reflexivity | reflexivity |].
  left. split; [reflexivity|]. split; [left; reflexivity|].
  exists 3, 0%Z. reflexivity.
Defined.

(** An integer ["42"] on a document with a quoted path key. *)
Lemma primitives_are_validated_example :
  let p := Sample.optional_integer_odata in
  let raw := VString "42" in
  let st1 := snd (Sample.value_of p raw (construct p 0)) in
  Sample.value_of p raw (construct p 0) = (Normal (VNumber 42), st1)
  /\ error st1 = None
  /\ ParameterObject.type p <> Some "file"
  /\ Sample.isFile (schema p) = false
  /\ exists st2 b,
       Sample.valid_of Sample.accept_all p raw
         (Sample.reads_of Sample.accept_all p raw [])
       = (Normal (Some b), st2)
       /\ validations st2 = 1
       /\ heap st2 = escaped Sample.escapeSingleQuotes p.
Proof.
  cbv zeta. split; [reflexivity|]. split; [reflexivity|].
  split; [discriminate|]. split; [reflexivity|].
  apply (primitives_are_validated Sample.convertValue Sample.isFile
           Sample.escapeSingleQuotes Sample.constructSchemaPathFromPtr
           Sample.accept_all Sample.optional_integer_odata (VString "42")
           VUndefined 0 [] (VNumber 42)
           (snd (Sample.value_of Sample.optional_integer_odata
                   (VString "42")
                   (construct Sample.optional_integer_odata 0))));
    [reflexivity | reflexivity | discriminate | right; reflexivity |].
  left. exists 42%Z. reflexivity.
Defined.

(** [oneOf: [{type:'null'}], default: 7]. *)
Lemma oneOf_nothing_attempted_example :
  let p := Sample.only_null in
  Schema.oneOf (schema p) = Some [Sample.schema_of "null"]
  /\ attempted [Sample.schema_of "null"] = []
  /\ exists v st1,
       Sample.value_of p (VString "5") (construct p 0) = (Normal v, st1)
       /\ error st1 = None
       /\ conversions st1 = 0
       /\ v = VNumber 7.
Proof.
  cbv zeta. split; [reflexivity|]. split; [reflexivity|].
  destruct (oneOf_nothing_attempted Sample.convertValue Sample.only_null
              (VString "5") 0 [Sample.schema_of "null"]
              eq_refl eq_refl)
    as (v & st1 & Hvalue & Herror & Hcalls & Hdefault).
  exists v, st1. split; [exact Hvalue|]. split; [exact Herror|].
  split; [exact Hcalls|]. apply Hdefault; discriminate.
Defined.

(** [oneOf: [{type:'null'}, {type:'string'}]] and the raw value
    ["abc"]. *)
Lemma oneOf_unchanged_raw_example :
  let p := Sample.null_or_string in
  let raw := VString "abc" in
  let alternatives := [Sample.schema_of "null"; Sample.schema_of "string"] in
  Schema.oneOf (schema p) = Some alternatives
  /\ Schema.type (schema p) <> Some "file"
  /\ attempted alternatives <> []
  /\ raw <> VUndefined
  /\ strict_eq raw raw = true
  /\ (forall s, In s (attempted alternatives) ->
                Sample.convertValue s (ParameterObject.collectionFormat p) raw
                = Normal raw)
  /\ exists st1,
       Sample.value_of p raw (construct p 0) = (Normal raw, st1)
       /\ error st1 = None
       /\ conversions st1 = 1.
Proof.
  cbv zeta.
  assert (forall s,
             In s (attempted [Sample.schema_of "null";
                              Sample.schema_of "string"]) ->
             Sample.convertValue s
               (ParameterObject.collectionFormat Sample.null_or_string)
               (VString "abc")
             = Normal (VString "abc")) as Hsame
      by (intros s [<-|[]]; reflexivity).
  split; [reflexivity|]. split; [discriminate|]. split; [discriminate|].
  split; [discriminate|]. split; [reflexivity|]. split; [exact Hsame|].
  apply (oneOf_unchanged_raw Sample.convertValue Sample.null_or_string
           (VString "abc") 0
           [Sample.schema_of "null"; Sample.schema_of "string"]);
    [reflexivity | discriminate | discriminate | discriminate
     | reflexivity | exact Hsame].
Defined.
